(** * netSecAudit: discovery, topology and mock-data code, embedded and verified

    The Python sources are embedded shallowly: pure code as functions,
    code that raises as an [outcome], code that draws random numbers or
    talks to the database as state passing in the monad [Py.M]. *)

From Stdlib Require Import ZArith QArith Qminmax Lqa Qround Ascii.
From stdpp Require Import base option list sets gmap strings pretty.

Set Warnings "-clear-no-such-hyp".

Local Open Scope Z_scope.

(** ** Python run-time: exceptions, outcomes, state passing *)

Module Py.

(** The exception classes the embedded code can meet. [KeyboardInterrupt]
    derives from [BaseException] only, so [except Exception] lets it pass. *)
Inductive exn_class :=
| ValueError | IndexError | KeyError | NetworkXError
| NodeNotFound | IntegrityError | OperationalError | OSError | EOFError
| KeyboardInterrupt.

#[global] Instance exn_class_eq_dec : EqDecision exn_class.
Proof. solve_decision. Defined.

Record exn := mk_exn { exn_cls : exn_class; exn_msg : string }.

(** [isinstance(e, Exception)] *)
Definition is_Exception (e : exn) : bool :=
  match exn_cls e with KeyboardInterrupt => false | _ => true end.

(** [str(e)] *)
Definition str (e : exn) : string := exn_msg e.

(** What a call does: it returns, it raises, or (for the bounded unfolding
    of a [while] loop only) the bound was reached before the loop ended. *)
Inductive outcome (A : Type) :=
| Returns (a : A)
| Raises (e : exn)
| Exhausted.
Arguments Returns {A} a.
Arguments Raises {A} e.
Arguments Exhausted {A}.

(** Computations over a state [S]; the state survives an exception. *)
Definition M (S A : Type) : Type := S -> outcome A * S.

Definition ret {S A} (a : A) : M S A := fun s => (Returns a, s).

Definition bind {S A B} (m : M S A) (k : A -> M S B) : M S B :=
  fun s =>
    match m s with
    | (Returns a, s') => k a s'
    | (Raises e, s') => (Raises e, s')
    | (Exhausted, s') => (Exhausted, s')
    end.

Definition raise {S A} (e : exn) : M S A := fun s => (Raises e, s).

(** The loop bound of a [while] unfolding was reached. *)
Definition exhausted {S A} : M S A := fun s => (Exhausted, s).

(** The outcome of a call into the environment. *)
Definition lift {S A} (o : outcome A) : M S A := fun s => (o, s).

Definition get {S} : M S S := fun s => (Returns s, s).
Definition put {S} (s : S) : M S unit := fun _ => (Returns tt, s).
Definition modify {S} (f : S -> S) : M S unit := fun s => (Returns tt, f s).

(** [try: body / except Exception as e: handler(e)] *)
Definition try_except {S A} (body : M S A) (handler : exn -> M S A) : M S A :=
  fun s =>
    match body s with
    | (Raises e, s') => if is_Exception e then handler e s' else (Raises e, s')
    | r => r
    end.

(** [try: body / except cls: handler], for a class without subclasses *)
Definition try_except_class {S A} (cls : exn_class) (body : M S A) (handler : M S A)
    : M S A :=
  fun s =>
    match body s with
    | (Raises e, s') =>
        if bool_decide (exn_cls e = cls) then handler s' else (Raises e, s')
    | r => r
    end.

(** [try: body / finally: final]; an exception of [final] replaces the
    outcome of [body]. *)
Definition try_finally {S A} (body : M S A) (final : M S unit) : M S A :=
  fun s =>
    let '(r, s') := body s in
    match final s' with
    | (Returns _, s'') => (r, s'')
    | (Raises e, s'') => (Raises e, s'')
    | (Exhausted, s'') => (Exhausted, s'')
    end.

(** [for x in xs: body x], threading an accumulator. *)
Fixpoint for_each {S A B} (xs : list A) (body : A -> B -> M S B) (acc : B) : M S B :=
  match xs with
  | [] => ret acc
  | x :: xs' => bind (body x acc) (for_each xs' body)
  end.

(** Python's two-argument [min] and [max] on numbers: the first argument is
    kept unless the second is strictly smaller (resp. larger). *)
Definition min (a b : Q) : Q := if Qlt_le_dec b a then b else a.
Definition max (a b : Q) : Q := if Qlt_le_dec a b then b else a.

(** [max(xs)] on a list of naturals: [ValueError] when it is empty *)
Definition max_of {S} (xs : list nat) : M S nat :=
  match xs with
  | [] => raise (mk_exn ValueError "max() arg is an empty sequence")
  | x :: xs' => ret (foldl Nat.max x xs')
  end.

(** [range(n)] *)
Definition range (n : Z) : list Z := Z.of_nat <$> seq 0 (Z.to_nat n).

(** [xs[i]], with Python's negative indices and [IndexError] *)
Definition getitem {S A} (xs : list A) (i : Z) : M S A :=
  let j := if decide (i < 0) then Z.of_nat (length xs) + i else i in
  match (if decide (j < 0) then None else xs !! Z.to_nat j) with
  | Some x => ret x
  | None => raise (mk_exn IndexError "list index out of range")
  end.

(** [f"{n:02x}"] for [0 <= n < 256] *)
Definition hex_digit (d : Z) : string :=
  String.substring (Z.to_nat d) 1 "0123456789abcdef".
Definition fmt_02x (n : Z) : string := hex_digit (n / 16) +:+ hex_digit (n mod 16).

(** [f"{n:03d}"] for a non-negative [n] *)
Definition fmt_03d (n : Z) : string :=
  let s := pretty n in
  String.concat "" (replicate (3 - String.length s)%nat "0") +:+ s.

End Py.

Export Py.

Declare Scope py_scope.
Delimit Scope py_scope with py.
Notation "x <- c ;; k" := (Py.bind c (fun x => k))
  (at level 100, c at next level, right associativity) : py_scope.
Notation "c ;;; k" := (Py.bind c (fun _ => k))
  (at level 100, right associativity) : py_scope.
Local Open Scope py_scope.

(** ** The [random] module

    The hidden generator is an infinite tape of raw draws and a read
    position; every result is computed from the next raw draw, so that any
    tape is a possible run and every run is some tape. *)

Module Random.

Record rng := mk_rng { tape : nat -> Z; pos : nat }.

Definition of_list (l : list Z) : rng :=
  {| tape := fun i => nth i l 0; pos := 0 |}.

Definition next : M rng Z :=
  fun g => (Returns (tape g (pos g)), {| tape := tape g; pos := S (pos g) |}).

(** [_randbelow(n)] for [n > 0] *)
Definition randbelow (n : Z) : M rng Z :=
  r <- next ;; ret (r mod n).

(** [random.randint(a, b)]: [randrange(a, b+1)], [ValueError] on an empty range *)
Definition randint (a b : Z) : M rng Z :=
  if decide (b < a) then raise (mk_exn ValueError "empty range for randrange()")
  else (k <- randbelow (b - a + 1) ;; ret (a + k)).

(** [random.choice(seq)]: [IndexError] on an empty sequence *)
Definition choice {A} (xs : list A) : M rng A :=
  match xs with
  | [] => raise (mk_exn IndexError "Cannot choose from an empty sequence")
  | x :: _ => k <- randbelow (Z.of_nat (length xs)) ;; ret (nth (Z.to_nat k) xs x)
  end.

(** [random.random()]: a multiple of 2^-53 in [0, 1) *)
Definition random : M rng Q :=
  r <- next ;; ret (Qmake (r mod 2 ^ 53) (2 ^ 53)).

(** [random.uniform(a, b)]: [a + (b - a) * random()] *)
Definition uniform (a b : Q) : M rng Q :=
  u <- random ;; ret (a + (b - a) * u)%Q.

End Random.

(** ** database/models.py *)

Module Models.

(** [class DeviceStatus(enum.Enum)] *)
Inductive DeviceStatus := ONLINE | WARNING | OFFLINE | MAINTENANCE.

#[global] Instance DeviceStatus_eq_dec : EqDecision DeviceStatus.
Proof. solve_decision. Defined.

Definition DeviceStatus_members : list DeviceStatus :=
  [ONLINE; WARNING; OFFLINE; MAINTENANCE].

Definition DeviceStatus_name (s : DeviceStatus) : string :=
  match s with
  | ONLINE => "ONLINE" | WARNING => "WARNING"
  | OFFLINE => "OFFLINE" | MAINTENANCE => "MAINTENANCE"
  end.

Definition DeviceStatus_value (s : DeviceStatus) : string :=
  match s with
  | ONLINE => "online" | WARNING => "warning"
  | OFFLINE => "offline" | MAINTENANCE => "maintenance"
  end.

(** [DeviceStatus(v)]: the member whose value is [v], else [ValueError].
    Python's message shows [repr(v)], the text here shows [v] itself. *)
Definition DeviceStatus_call (v : string) : outcome DeviceStatus :=
  match List.find (fun s => String.eqb (DeviceStatus_value s) v) DeviceStatus_members with
  | Some s => Returns s
  | None => Raises (mk_exn ValueError (v +:+ " is not a valid DeviceStatus"))
  end.

(** [class AlertSeverity(enum.Enum)] *)
Inductive AlertSeverity := LOW | MEDIUM | HIGH | CRITICAL.

#[global] Instance AlertSeverity_eq_dec : EqDecision AlertSeverity.
Proof. solve_decision. Defined.

Definition AlertSeverity_members : list AlertSeverity := [LOW; MEDIUM; HIGH; CRITICAL].

Definition AlertSeverity_value (s : AlertSeverity) : string :=
  match s with
  | LOW => "low" | MEDIUM => "medium" | HIGH => "high" | CRITICAL => "critical"
  end.

Definition AlertSeverity_call (v : string) : outcome AlertSeverity :=
  match List.find (fun s => String.eqb (AlertSeverity_value s) v) AlertSeverity_members with
  | Some s => Returns s
  | None => Raises (mk_exn ValueError (v +:+ " is not a valid AlertSeverity"))
  end.

End Models.

(** ** data/mock_generator.py *)

Module MockGenerator.
Import Random.

(** The [statuses] drawn by [generate_device_inventory]. *)
Definition statuses : list string := ["online"; "offline"; "warning"; "maintenance"].

(** One element of the list built by [generate_system_metrics]. *)
Record system_metric := {
  timestamp : Z;
  server_id : string;
  cpu_usage : Q;
  memory_usage : Q;
  disk_io : Q;
  network_throughput : Q
}.

(** Truthiness of the optional [server_id] argument: [None] and the empty
    string are false. *)
Definition truthy (o : option string) : bool :=
  match o with
  | Some s => negb (String.eqb s "")
  | None => false
  end.

(** [generate_system_metrics(num_points, server_id)]; [now] is
    [datetime.datetime.now()] in minutes. *)
Definition generate_system_metrics (num_points : Z) (server_id : option string)
    (now : Z) : M rng (list system_metric) :=
  let end_time := now in
  let start_time := end_time - num_points in
  let timestamps := (fun i => start_time + i) <$> range num_points in
  base_cpu <- uniform 20 40 ;;
  base_memory <- uniform 30 60 ;;
  base_disk <- uniform 10 30 ;;
  base_network <- uniform 20 50 ;;
  cpu_trend <- uniform (-0.1) 0.1 ;;
  memory_trend <- uniform (-0.05) 0.1 ;;
  disk_trend <- uniform (-0.05) 0.05 ;;
  network_trend <- uniform (-0.1) 0.1 ;;
  for_each (imap (fun i t => (i, t)) timestamps)
    (fun '(i, timestamp) metrics =>
       let i := inject_Z (Z.of_nat i) in
       n1 <- uniform (-5) 5 ;;
       let cpu_usage := (base_cpu + (i * cpu_trend) + n1)%Q in
       n2 <- uniform (-3) 3 ;;
       let memory_usage := (base_memory + (i * memory_trend) + n2)%Q in
       n3 <- uniform (-2) 2 ;;
       let disk_io := (base_disk + (i * disk_trend) + n3)%Q in
       n4 <- uniform (-5) 5 ;;
       let network_throughput := (base_network + (i * network_trend) + n4)%Q in
       let cpu_usage := Py.max 0.1 (Py.min 99.9 cpu_usage) in
       let memory_usage := Py.max 0.1 (Py.min 99.9 memory_usage) in
       let disk_io := Py.max 0.1 (Py.min 99.9 disk_io) in
       let network_throughput := Py.max 0.1 (Py.min 99.9 network_throughput) in
       sid <- (if truthy server_id then ret (default "" server_id)
               else (n <- randint 1 10 ;; ret ("srv-" +:+ fmt_03d n))) ;;
       ret (metrics ++ [{| timestamp := timestamp; server_id := sid;
                           cpu_usage := cpu_usage; memory_usage := memory_usage;
                           disk_io := disk_io;
                           network_throughput := network_throughput |}]))
    [].

(** *** utils.get_random_ip, utils.get_random_mac *)

Definition get_random_ip : M rng string :=
  a <- randint 10 192 ;;
  b <- randint 0 255 ;;
  c <- randint 0 255 ;;
  d <- randint 1 254 ;;
  ret (pretty a +:+ "." +:+ pretty b +:+ "." +:+ pretty c +:+ "." +:+ pretty d).

Definition get_random_mac : M rng string :=
  parts <- for_each (range 6)
             (fun _ acc => n <- randint 0 255 ;; ret (acc ++ [fmt_02x n])) [] ;;
  ret (String.concat ":" parts).

(** *** generate_topology_changes *)

Record topology_change := {
  change_id : string;
  tc_timestamp : Z;
  change_type : string;
  device_id : string;
  device_type : string;
  details : string
}.

Definition change_types : list string :=
  ["Device Added"; "Device Removed"; "Link Added"; "Link Removed"; "Status Change"].

Definition device_types : list string :=
  ["Router"; "Switch"; "Firewall"; "Server"; "Access Point"; "Workstation"].

Definition status_names : list string := ["Online"; "Offline"; "Degraded"].

(** [while old_status == new_status: new_status = random.choice([...])],
    unfolded at most [fuel] times. *)
Fixpoint redraw_status (fuel : nat) (old_status new_status : string) : M rng string :=
  if String.eqb old_status new_status then
    match fuel with
    | O => exhausted
    | S fuel' =>
        new_status <- choice status_names ;;
        redraw_status fuel' old_status new_status
    end
  else ret new_status.

(** [generate_topology_changes(num_changes)]; [now] is
    [datetime.datetime.now()] in minutes, [fuel] bounds each [while] loop. *)
Definition generate_topology_changes (fuel : nat) (num_changes : Z) (now : Z)
    : M rng (list topology_change) :=
  let end_time := now in
  let start_time := end_time - 30 * 1440 in
  for_each (range num_changes)
    (fun i changes =>
       days <- randint 0 29 ;;
       hours <- randint 0 23 ;;
       minutes <- randint 0 59 ;;
       let timestamp := start_time + (days * 1440 + hours * 60 + minutes) in
       change_type <- choice change_types ;;
       device_type <- choice device_types ;;
       n <- randint 1000 9999 ;;
       let device_id := "DEV-" +:+ pretty n in
       details <-
         (if String.eqb change_type "Device Added" then
            ip_address <- get_random_ip ;;
            mac_address <- get_random_mac ;;
            ret ("New " +:+ device_type +:+ " added with IP " +:+ ip_address
                 +:+ " and MAC " +:+ mac_address)
          else if String.eqb change_type "Device Removed" then
            ip_address <- get_random_ip ;;
            ret (device_type +:+ " with IP " +:+ ip_address
                 +:+ " has been removed from the network")
          else if String.eqb change_type "Link Added" then
            m <- randint 1000 9999 ;;
            let src_device := "DEV-" +:+ pretty m in
            ret ("New link established between " +:+ device_id +:+ " and " +:+ src_device)
          else if String.eqb change_type "Link Removed" then
            m <- randint 1000 9999 ;;
            let src_device := "DEV-" +:+ pretty m in
            ret ("Link between " +:+ device_id +:+ " and " +:+ src_device
                 +:+ " has been removed")
          else
            old_status <- choice status_names ;;
            new_status <- choice status_names ;;
            new_status <- redraw_status fuel old_status new_status ;;
            ret (device_type +:+ " status changed from " +:+ old_status
                 +:+ " to " +:+ new_status)) ;;
       c <- randint 10000 99999 ;;
       ret (changes ++ [{| change_id := "CHG-" +:+ pretty c;
                           tc_timestamp := timestamp;
                           change_type := change_type;
                           device_id := device_id;
                           device_type := device_type;
                           details := details |}]))
    [].

End MockGenerator.

(** ** networkx, as far as the pages use it

    [networkx.Graph] keeps two dictionaries: [_node] from a node to its
    attribute dictionary and [_adj] from a node to the dictionary of its
    neighbours. Nodes are Python integers. A Python dictionary enumerates its
    keys in insertion order and a [gmap] in an order of its own; what is
    stated below about graphs is about membership, sizes and per-node values,
    never about the order of an enumeration. *)

Module Nx.

Notation attrs := (gmap string string) (only parsing).

Record Graph := mk_Graph {
  _node : gmap Z attrs;
  _adj : gmap Z (gset Z)
}.

(** [nx.Graph()] *)
Definition empty_graph : Graph := {| _node := ∅; _adj := ∅ |}.

(** [G.add_node(n, **attr)] (written [attr] for the keyword arguments) *)
Definition add_node (n : Z) (attr : attrs) (G : Graph) : Graph :=
  match _node G !! n with
  | None => {| _node := <[n := attr]> (_node G); _adj := <[n := ∅]> (_adj G) |}
  | Some old => {| _node := <[n := attr ∪ old]> (_node G); _adj := _adj G |}
  end.

(** The first half of [add_edge]: a missing endpoint becomes a node with no
    attributes and no neighbours. *)
Definition ensure_node (u : Z) (G : Graph) : Graph :=
  match _node G !! u with
  | None => {| _node := <[u := ∅]> (_node G); _adj := <[u := ∅]> (_adj G) |}
  | Some _ => G
  end.

(** [G.add_edge(u, v)] *)
Definition add_edge (u v : Z) (G : Graph) : Graph :=
  let G := ensure_node u G in
  let G := ensure_node v G in
  let adj := <[u := {[v]} ∪ (_adj G !!! u)]> (_adj G) in
  let adj := <[v := {[u]} ∪ (adj !!! v)]> adj in
  {| _node := _node G; _adj := adj |}.

(** [G.nodes()], [len(G)] *)
Definition nodes (G : Graph) : list Z := (map_to_list (_node G)).*1.
Definition order (G : Graph) : nat := size (_node G).

(** [G[v]]: the neighbours of [v] *)
Definition neighbors (G : Graph) (v : Z) : list Z := elements (_adj G !!! v).

(** [G.edges()]: each edge once, from the endpoint met first *)
Definition edges (G : Graph) : list (Z * Z) :=
  (foldl (fun '(seen, out) '(n, nbrs) =>
            (({[n]} : gset Z) ∪ seen,
             out ++ ((fun nbr => (n, nbr)) <$>
                       filter (fun nbr => nbr ∉ seen) (elements nbrs))))
         ((∅ : gset Z), []) (map_to_list (_adj G))).2.

(** [len(G.edges)] *)
Definition number_of_edges (G : Graph) : Z :=
  (foldr (fun (item : Z * gset Z) acc =>
            let '(n, nbrs) := item in
            Z.of_nat (size nbrs) + (if decide (n ∈ nbrs) then 1 else 0) + acc)
         0 (map_to_list (_adj G))) / 2.

(** *** Breadth-first distances: [_single_shortest_path_length] *)

(** The generator's local variables; [found] collects the pairs it yields. *)
Record bfs_state := {
  seen : gset Z;
  nextlevel : list Z;
  found : list (Z * nat)
}.

(** [if w not in seen: seen.add(w); nextlevel.append(w); yield (w, level)] *)
Definition visit (level : nat) (st : bfs_state) (w : Z) : bfs_state :=
  if decide (w ∈ seen st) then st
  else {| seen := {[w]} ∪ seen st;
          nextlevel := nextlevel st ++ [w];
          found := found st ++ [(w, level)] |}.

(** [for v in thislevel: (for w in adj[v]: ...); if len(seen) == n: return];
    the boolean tells whether the generator returned. *)
Fixpoint scan_level (G : Graph) (n level : nat) (thislevel : list Z) (st : bfs_state)
    : bool * bfs_state :=
  match thislevel with
  | [] => (false, st)
  | v :: rest =>
      let st := foldl (visit level) st (neighbors G v) in
      if decide (size (seen st) = n) then (true, st)
      else scan_level G n level rest st
  end.

(** [while nextlevel and cutoff > level: ...] with an infinite cutoff,
    unfolded at most [fuel] times. *)
Fixpoint bfs_levels (fuel : nat) (G : Graph) (n level : nat) (st : bfs_state)
    : option (list (Z * nat)) :=
  match nextlevel st with
  | [] => Some (found st)
  | _ :: _ =>
      match fuel with
      | O => None
      | S fuel' =>
          let level := S level in
          let thislevel := nextlevel st in
          let '(returned, st) :=
            scan_level G n level thislevel
              {| seen := seen st; nextlevel := []; found := found st |} in
          if returned then Some (found st) else bfs_levels fuel' G n level st
      end
  end.

(** [nx.single_source_shortest_path_length(G, source)], as the dictionary
    [shortest_path_length] makes of it. Every round of the loop but the last
    adds a node to [seen], so [len(adj) + 1] rounds are enough (lemma
    [bfs_levels_terminates]). *)
Definition single_source_shortest_path_length {S} (G : Graph) (source : Z)
    : M S (gmap Z nat) :=
  if decide (source ∈ dom (_node G)) then
    let n := size (_adj G) in
    match bfs_levels (Datatypes.S n) G n 0
            {| seen := {[source]}; nextlevel := [source]; found := [(source, O)] |} with
    | Some pairs => ret (list_to_map pairs)
    | None => exhausted
    end
  else raise (mk_exn NodeNotFound ("Source " +:+ pretty source +:+ " is not in G")).

(** [nx.eccentricity(G)] *)
Definition eccentricity {S} (G : Graph) : M S (gmap Z nat) :=
  let order := order G in
  for_each (nodes G)
    (fun n e =>
       length <- single_source_shortest_path_length G n ;;
       let L := size length in
       if decide (L <> order) then
         raise (mk_exn NetworkXError
                  "Found infinite path length because the graph is not connected")
       else (m <- max_of (map_to_list length).*2 ;; ret (<[n := m]> e)))
    ∅.

(** [nx.diameter(G)] *)
Definition diameter {S} (G : Graph) : M S nat :=
  e <- eccentricity G ;;
  max_of (map_to_list e).*2.

(** *** Betweenness centrality (Brandes): [nx.betweenness_centrality(G)]

    Python floats are modelled by exact rationals. The dictionaries [P],
    [sigma] and [betweenness] have every node as key and [D] is read only
    at keys it has, so no lookup fails; total lookups are used for them. *)

#[global] Instance Q_inhabited : Inhabited Q := populate 0%Q.

(** The local variables of [_single_source_shortest_path_basic]: the stack
    [S], the predecessor lists [P], the path counts [sigma], the distances
    [D] and the queue [Q]. *)
Record sp_state := {
  sp_S : list Z;
  sp_P : gmap Z (list Z);
  sp_sigma : gmap Z Q;
  sp_D : gmap Z nat;
  sp_Q : list Z
}.

(** The body of [for w in G[v]] *)
Definition relax (v : Z) (Dv : nat) (sigmav : Q) (st : sp_state) (w : Z) : sp_state :=
  let st :=
    match sp_D st !! w with
    | None => {| sp_S := sp_S st; sp_P := sp_P st; sp_sigma := sp_sigma st;
                 sp_D := <[w := (Dv + 1)%nat]> (sp_D st); sp_Q := sp_Q st ++ [w] |}
    | Some _ => st
    end in
  if decide (sp_D st !!! w = (Dv + 1)%nat) then
    {| sp_S := sp_S st;
       sp_P := <[w := (sp_P st !!! w) ++ [v]]> (sp_P st);
       sp_sigma := <[w := (sp_sigma st !!! w + sigmav)%Q]> (sp_sigma st);
       sp_D := sp_D st; sp_Q := sp_Q st |}
  else st.

(** [while Q: v = Q.popleft(); ...], unfolded at most [fuel] times *)
Fixpoint sp_loop (fuel : nat) (G : Graph) (st : sp_state) : option sp_state :=
  match sp_Q st with
  | [] => Some st
  | v :: rest =>
      match fuel with
      | O => None
      | S fuel' =>
          let st := {| sp_S := sp_S st ++ [v]; sp_P := sp_P st; sp_sigma := sp_sigma st;
                       sp_D := sp_D st; sp_Q := rest |} in
          let Dv := sp_D st !!! v in
          let sigmav := sp_sigma st !!! v in
          sp_loop fuel' G (foldl (relax v Dv sigmav) st (neighbors G v))
      end
  end.

(** [_single_source_shortest_path_basic(G, s)]; each node enters the queue
    at most once, so [len(G) + 1] rounds are enough. *)
Definition single_source_shortest_path_basic {S} (G : Graph) (s : Z)
    : M S (list Z * gmap Z (list Z) * gmap Z Q) :=
  let P := (fun _ => @nil Z) <$> _node G in
  let sigma := (fun _ => 0%Q) <$> _node G in
  match sp_loop (Datatypes.S (order G)) G
          {| sp_S := []; sp_P := P; sp_sigma := <[s := 1%Q]> sigma;
             sp_D := {[s := O]}; sp_Q := [s] |} with
  | Some st => ret (sp_S st, sp_P st, sp_sigma st)
  | None => exhausted
  end.

(** [_accumulate_basic(betweenness, S, P, sigma, s)]: the stack [S] is
    popped from its end. *)
Definition accumulate_basic (betweenness : gmap Z Q) (stack : list Z)
    (P : gmap Z (list Z)) (sigma : gmap Z Q) (s : Z) : gmap Z Q :=
  let delta0 : gmap Z Q := list_to_map ((fun v => (v, 0%Q)) <$> stack) in
  (foldl (fun '(betweenness, delta) w =>
            let coeff := ((1 + delta !!! w) / (sigma !!! w))%Q in
            let delta :=
              foldl (fun delta v => <[v := (delta !!! v + (sigma !!! v) * coeff)%Q]> delta)
                    delta (P !!! w) in
            if decide (w <> s) then
              (<[w := (betweenness !!! w + delta !!! w)%Q]> betweenness, delta)
            else (betweenness, delta))
         (betweenness, delta0) (rev stack)).1.

(** [_rescale(betweenness, n, normalized=True)] for an undirected graph, all
    sources used and endpoints not counted *)
Definition rescale (betweenness : gmap Z Q) (n : nat) : gmap Z Q :=
  if decide (n <= 2)%nat then betweenness
  else
    let scale := (1 / (inject_Z (Z.of_nat (n - 1)) * inject_Z (Z.of_nat (n - 2))))%Q in
    (fun b => (b * scale)%Q) <$> betweenness.

Definition betweenness_centrality {S} (G : Graph) : M S (gmap Z Q) :=
  let betweenness : gmap Z Q := (fun _ => 0%Q) <$> _node G in
  betweenness <- for_each (nodes G)
    (fun s betweenness =>
       r <- single_source_shortest_path_basic G s ;;
       let '(stack, P, sigma) := r in
       ret (accumulate_basic betweenness stack P sigma s))
    betweenness ;;
  ret (rescale betweenness (order G)).

(** A star: [hub] joined to each of [leaves]. *)
Definition star_graph (hub : Z) (leaves : list Z) : Graph :=
  foldl (fun G leaf => add_edge hub leaf G) (add_node hub ∅ empty_graph) leaves.

End Nx.

(** ** utils.py: the random network *)

Module Utils.
Import Random Nx.

(** [while len(G.edges) < num_edges: ...], unfolded at most [fuel] times *)
Fixpoint add_random_edges (fuel : nat) (num_nodes num_edges : Z) (G : Graph)
    : M rng Graph :=
  if decide (number_of_edges G < num_edges) then
    match fuel with
    | O => exhausted
    | S fuel' =>
        u <- randint 0 (num_nodes - 1) ;;
        v <- randint 0 (num_nodes - 1) ;;
        add_random_edges fuel' num_nodes num_edges
          (if decide (u <> v) then add_edge u v G else G)
    end
  else ret G.

(** [create_network_graph(num_nodes, num_edges)], up to the graph [G] it
    returns first; the layout lists computed after it read [G] only. [fuel]
    bounds the [while] loop. *)
Definition create_network_graph (fuel : nat) (num_nodes num_edges : Z) : M rng Graph :=
  G <- for_each (range num_nodes)
         (fun i G =>
            node_type <- choice ["server"; "router"; "switch"; "client"] ;;
            node_status <- choice ["online"; "online"; "online"; "warning"; "offline"] ;;
            ret (add_node i (<["type" := node_type]> (<["status" := node_status]> ∅)) G))
         empty_graph ;;
  add_random_edges fuel num_nodes num_edges G.

End Utils.

(** ** pages/4_Network_Topology.py *)

Module TopologyPage.
Import Random.

Record finding := {
  Vulnerability : string;
  Severity : string;
  Affected_Nodes : Z;
  Affected_Links : Z;
  Risk_Score : Z;
  Recommendation : string
}.

Definition vulnerability_types : list string :=
  ["Single Point of Failure"; "Bottleneck Link"; "High Load Node";
   "Redundancy Issue"; "Connectivity Risk"].

Definition severity_levels : list string := ["Critical"; "High"; "Medium"].

(** The loop that fills [vuln_data]. *)
Definition vuln_data : M rng (list finding) :=
  for_each (range 5)
    (fun i vuln_data =>
       vuln_type <- getitem vulnerability_types i ;;
       k <- randint 0 (Z.min i 2) ;;
       severity <- getitem severity_levels k ;;
       affected_nodes <- randint 1 5 ;;
       affected_links <- randint 0 3 ;;
       risk_score <-
         (if String.eqb severity "Critical" then randint 80 100
          else if String.eqb severity "High" then randint 60 79
          else randint 40 59) ;;
       action <- choice ["redundancy"; "load balancing"; "failover"; "monitoring"] ;;
       ret (vuln_data ++ [{| Vulnerability := vuln_type;
                             Severity := severity;
                             Affected_Nodes := affected_nodes;
                             Affected_Links := affected_links;
                             Risk_Score := risk_score;
                             Recommendation := "Implement " +:+ action
                                               +:+ " for affected components" |}]))
    [].

(** *** The statistics under the network diagram *)

(** What [st.metric] is given as value. *)
Inductive metric_value :=
| MetricInt (n : Z)
| MetricStr (s : string).

(** The fourth column: the diameter, or the text shown for a disconnected
    graph. *)
Definition diameter_metric {S} (G : Nx.Graph) : M S (string * metric_value) :=
  try_except_class NetworkXError
    (diameter <- Nx.diameter G ;;
     ret ("Network Diameter", MetricInt (Z.of_nat diameter)))
    (ret ("Network Diameter", MetricStr "N/A (Disconnected)")).

(** [for node in G.nodes(): a = G.nodes[node][key];
    counts[a] = counts.get(a, 0) + 1] *)
Definition count_by {S} (key : string) (G : Nx.Graph) : M S (gmap string Z) :=
  for_each (Nx.nodes G)
    (fun node counts =>
       match Nx._node G !! node ≫= (fun a => a !! key) with
       | Some a => ret (<[a := default 0 (counts !! a) + 1]> counts)
       | None => raise (mk_exn KeyError key)
       end)
    ∅.

(** The diameter column followed by the two distributions of the "Network
    Details" section. *)
Definition network_statistics {S} (G : Nx.Graph)
    : M S (string * metric_value * gmap string Z * gmap string Z) :=
  col4 <- diameter_metric G ;;
  type_counts <- count_by "type" G ;;
  status_counts <- count_by "status" G ;;
  ret (col4, type_counts, status_counts).

End TopologyPage.

(** ** components/device_discovery.py *)

Module DeviceDiscovery.

(** A captured frame, and the rows a RouterOS resource returns. *)
Definition frame := string.
Definition resource := list (list (string * string)).

(** The network as the probes see it: what each library call does. *)
Record network := {
  (** [scapy.sniff(iface=, filter=, timeout=)] *)
  sniff : string -> string -> Z -> outcome (list frame);
  (** [routeros_api.RouterOsApiPool(host, username, password, port).get_api()] *)
  routeros_get_api : string -> string -> string -> Z -> outcome unit;
  (** [api.get_resource(path).get()] *)
  routeros_get : string -> outcome resource;
  (** [ssh.connect(host, username=, password=)] *)
  ssh_connect : string -> string -> string -> outcome unit;
  (** [ssh.exec_command(cmd)] followed by [stdout.read()] *)
  ssh_exec_command : string -> outcome (list Z);
  (** [bytes.decode()] *)
  decode : list Z -> outcome string
}.

(** The values the discovery methods return. *)
Inductive pyval :=
| PyBool (b : bool)
| PyStr (s : string)
| PyDict (items : list (string * resource)).

Section Probes.
Variable net : network.

Definition discover_lldp (interface : string) : M unit pyval :=
  try_except
    (lift (sniff net interface "ether proto 0x88cc" 30) ;;;
     ret (PyBool true))
    (fun e => ret (PyStr (str e))).

Definition discover_cdp (interface : string) : M unit pyval :=
  try_except
    (lift (sniff net interface "ether host 01:00:0c:cc:cc:cc" 30) ;;;
     ret (PyBool true))
    (fun e => ret (PyStr (str e))).

Definition discover_mikrotik (host username password : string) : M unit pyval :=
  try_except
    (lift (routeros_get_api net host username password 8728) ;;;
     identity <- lift (routeros_get net "/system/identity") ;;
     mdp <- lift (routeros_get net "/ip/neighbor") ;;
     interfaces <- lift (routeros_get net "/interface") ;;
     ret (PyDict [("identity", identity); ("mdp_neighbors", mdp);
                  ("interfaces", interfaces)]))
    (fun e => ret (PyStr (str e))).

Definition discover_mdp (interface : string) : M unit pyval :=
  try_except
    (lift (sniff net interface "ether proto 0x00CC" 30) ;;;
     ret (PyBool true))
    (fun e => ret (PyStr (str e))).

Definition discover_cisco (host username password : string) : M unit pyval :=
  try_except
    (lift (ssh_connect net host username password) ;;;
     raw <- lift (ssh_exec_command net "show cdp neighbors detail") ;;
     text <- lift (decode net raw) ;;
     ret (PyStr text))
    (fun e => ret (PyStr (str e))).

End Probes.

End DeviceDiscovery.

(** ** database/db_utils.py *)

Module DbUtils.
Import Models.

(** The mapped classes, one per table. *)
Inductive table :=
| NetworkDevice | DevicePerformanceMetric | SecurityEvent
| NetworkTraffic | TopologyChange.

#[global] Instance table_eq_dec : EqDecision table.
Proof. solve_decision. Defined.

(** The values a record dictionary holds. *)
Inductive value :=
| VNone
| VStr (s : string)
| VInt (n : Z)
| VFloat (q : Q)
| VBool (b : bool)
| VStatus (s : DeviceStatus)
| VSeverity (s : AlertSeverity).

#[global] Instance Q_eq_dec : EqDecision Q.
Proof. solve_decision. Defined.

#[global] Instance value_eq_dec : EqDecision value.
Proof. solve_decision. Defined.

(** A Python [dict] with string keys, in insertion order. *)
Definition dict := list (string * value).

(** [d.get(k)] *)
Fixpoint dict_get (k : string) (d : dict) : option value :=
  match d with
  | [] => None
  | (k', v) :: d' => if String.eqb k' k then Some v else dict_get k d'
  end.

(** [d[k] = v] *)
Fixpoint dict_set (k : string) (v : value) (d : dict) : dict :=
  match d with
  | [] => [(k, v)]
  | (k', v') :: d' =>
      if String.eqb k' k then (k', v) :: d' else (k', v') :: dict_set k v d'
  end.

Record row := { row_id : Z; row_cols : dict }.

(** An instance of a mapped class; [obj_id] is [None] until the instance
    has been flushed, and [obj_expired] holds from the commit that stored it
    until its attributes are loaded again. *)
Record orm_object := {
  obj_table : table;
  obj_cols : dict;
  obj_id : option Z;
  obj_expired : bool
}.

(** The database engine and the mapper, as far as the code relies on them:
    whether the constructor of a mapped class rejects its keyword arguments,
    whether an INSERT is refused (constraint, lost connection, ...), the
    primary key the database assigns, and whether the SELECT that loads the
    row of a key again fails (lost connection, row deleted in between, ...). *)
Record engine := {
  construct_error : table -> dict -> option exn;
  flush_error : (table -> list row) -> table -> dict -> option exn;
  allocate_id : (table -> list row) -> table -> Z;
  refresh_error : (table -> list row) -> table -> Z -> option exn
}.

(** The methods of the session that the code calls. *)
Inductive session_call := call_add | call_commit | call_rollback | call_close.

#[global] Instance session_call_eq_dec : EqDecision session_call.
Proof. solve_decision. Defined.

(** The committed tables, the uncommitted view of the open transaction (if
    any), the instances created, the instances added to the session and
    not yet flushed, what was printed, and the calls made on the session,
    oldest first. *)
Record world := {
  tables : table -> list row;
  working : option (table -> list row);
  heap : list orm_object;
  session_new : list nat;
  stdout : list string;
  journal : list session_call
}.

Definition insert_row (t : table) (r : row) (ts : table -> list row)
    : table -> list row :=
  fun t' => if decide (t' = t) then ts t' ++ [r] else ts t'.

(** The attributes of the instances [objs] are marked stale. *)
Definition expire (objs : list nat) (hp : list orm_object) : list orm_object :=
  foldr (fun obj hp =>
           alter (fun o => {| obj_table := obj_table o; obj_cols := obj_cols o;
                              obj_id := obj_id o; obj_expired := true |}) obj hp)
        hp objs.

Section Session.
Variable eng : engine.

(** The session records that one of its methods is entered. *)
Definition called (c : session_call) : M world unit :=
  modify (fun w => {| tables := tables w; working := working w; heap := heap w;
                      session_new := session_new w; stdout := stdout w;
                      journal := journal w ++ [c] |}).

(** [session.close()]: the transaction is released without commit and
    every instance is expunged. *)
Definition session_close : M world unit :=
  called call_close ;;;
  modify (fun w => {| tables := tables w; working := None; heap := heap w;
                      session_new := []; stdout := stdout w; journal := journal w |}).

(** [session.rollback()]: the transaction is rolled back and the pending
    instances are expunged. *)
Definition session_rollback : M world unit :=
  called call_rollback ;;;
  modify (fun w => {| tables := tables w; working := None; heap := heap w;
                      session_new := []; stdout := stdout w; journal := journal w |}).

(** [print(msg)] *)
Definition print (msg : string) : M world unit :=
  modify (fun w => {| tables := tables w; working := working w; heap := heap w;
                      session_new := session_new w; stdout := stdout w ++ [msg];
                      journal := journal w |}).

(** [get_session()]: the [finally] clause closes the session before the
    caller receives it. *)
Definition get_session : M world unit :=
  try_finally
    (try_except (ret tt)
       (fun e => session_rollback ;;;
                 print ("Error getting database session: " +:+ str e) ;;;
                 raise e))
    session_close.

(** The constructor of a mapped class, called with the dictionary as keyword
    arguments: a new transient instance, or the constructor's error. *)
Definition construct (t : table) (data : dict) : M world nat :=
  match construct_error eng t data with
  | Some e => raise e
  | None =>
      w <- get ;;
      put {| tables := tables w; working := working w;
             heap := heap w ++ [{| obj_table := t; obj_cols := data;
                                   obj_id := None; obj_expired := false |}];
             session_new := session_new w; stdout := stdout w;
             journal := journal w |} ;;;
      ret (length (heap w))
  end.

(** [session.add(obj)] *)
Definition session_add (obj : nat) : M world unit :=
  called call_add ;;;
  modify (fun w => {| tables := tables w; working := working w; heap := heap w;
                      session_new := session_new w ++ [obj]; stdout := stdout w;
                      journal := journal w |}).

(** The INSERT of one pending instance inside the open transaction. *)
Definition flush_one (obj : nat) (_ : unit) : M world unit :=
  w <- get ;;
  match heap w !! obj with
  | None => ret tt
  | Some o =>
      let view := default (tables w) (working w) in
      match flush_error eng view (obj_table o) (obj_cols o) with
      | Some e =>
          put {| tables := tables w; working := Some view; heap := heap w;
                 session_new := session_new w; stdout := stdout w;
                 journal := journal w |} ;;;
          raise e
      | None =>
          let i := allocate_id eng view (obj_table o) in
          put {| tables := tables w;
                 working := Some (insert_row (obj_table o)
                                    {| row_id := i; row_cols := obj_cols o |} view);
                 heap := <[obj := {| obj_table := obj_table o; obj_cols := obj_cols o;
                                     obj_id := Some i; obj_expired := false |}]> (heap w);
                 session_new := session_new w; stdout := stdout w;
                 journal := journal w |}
      end
  end.

(** [session.commit()]: flush every pending instance, make the
    transaction's view the committed state, and expire the instances of the
    session (the session factory is built by [sessionmaker(bind=engine)], so
    [expire_on_commit] has its default, [True]). *)
Definition session_commit : M world unit :=
  called call_commit ;;;
  w <- get ;;
  for_each (session_new w) flush_one tt ;;;
  modify (fun w => {| tables := default (tables w) (working w); working := None;
                      heap := expire (session_new w) (heap w);
                      session_new := []; stdout := stdout w; journal := journal w |}).

(** [obj.id]. On an instance that a commit has expired, the attribute is
    loaded again: the session begins a transaction and selects the row by
    its key, which the engine may refuse. *)
Definition read_id (obj : nat) : M world (option Z) :=
  w <- get ;;
  match heap w !! obj with
  | None => ret None
  | Some o =>
      match obj_id o with
      | Some i =>
          if obj_expired o then
            let view := default (tables w) (working w) in
            put {| tables := tables w; working := Some view; heap := heap w;
                   session_new := session_new w; stdout := stdout w;
                   journal := journal w |} ;;;
            match refresh_error eng view (obj_table o) i with
            | Some e => raise e
            | None =>
                put {| tables := tables w; working := Some view;
                       heap := <[obj := {| obj_table := obj_table o;
                                           obj_cols := obj_cols o;
                                           obj_id := Some i;
                                           obj_expired := false |}]> (heap w);
                       session_new := session_new w; stdout := stdout w;
                       journal := journal w |} ;;;
                ret (Some i)
            end
          else ret (Some i)
      | None => ret None
      end
  end.

(** [add_network_device(device_data)]. The conversion of the status rebinds
    the entry of the caller's dictionary; the dictionary is a value here, so
    the rebinding is local. *)
Definition add_network_device (device_data : dict) : M world (option Z) :=
  get_session ;;;
  try_finally
    (try_except
       (device_data <-
          match dict_get "status" device_data with
          | Some (VStr s) =>
              st <- lift (DeviceStatus_call s) ;;
              ret (dict_set "status" (VStatus st) device_data)
          | _ => ret device_data
          end ;;
        device <- construct NetworkDevice device_data ;;
        session_add device ;;;
        session_commit ;;;
        read_id device)
       (fun e =>
          session_rollback ;;;
          print ("Error adding network device: " +:+ str e) ;;;
          raise e))
    session_close.

Definition add_security_event (event_data : dict) : M world (option Z) :=
  get_session ;;;
  try_finally
    (try_except
       (event_data <-
          match dict_get "severity" event_data with
          | Some (VStr s) =>
              sev <- lift (AlertSeverity_call s) ;;
              ret (dict_set "severity" (VSeverity sev) event_data)
          | _ => ret event_data
          end ;;
        event <- construct SecurityEvent event_data ;;
        session_add event ;;;
        session_commit ;;;
        read_id event)
       (fun e =>
          session_rollback ;;;
          print ("Error adding security event: " +:+ str e) ;;;
          raise e))
    session_close.

Definition add_device_performance_metric (metric_data : dict) : M world (option Z) :=
  get_session ;;;
  try_finally
    (try_except
       (metric <- construct DevicePerformanceMetric metric_data ;;
        session_add metric ;;;
        session_commit ;;;
        read_id metric)
       (fun e =>
          session_rollback ;;;
          print ("Error adding device performance metric: " +:+ str e) ;;;
          raise e))
    session_close.

Definition add_network_traffic (traffic_data : dict) : M world (option Z) :=
  get_session ;;;
  try_finally
    (try_except
       (traffic <- construct NetworkTraffic traffic_data ;;
        session_add traffic ;;;
        session_commit ;;;
        read_id traffic)
       (fun e =>
          session_rollback ;;;
          print ("Error adding network traffic record: " +:+ str e) ;;;
          raise e))
    session_close.

Definition add_topology_change (change_data : dict) : M world (option Z) :=
  get_session ;;;
  try_finally
    (try_except
       (change <- construct TopologyChange change_data ;;
        session_add change ;;;
        session_commit ;;;
        read_id change)
       (fun e =>
          session_rollback ;;;
          print ("Error adding topology change record: " +:+ str e) ;;;
          raise e))
    session_close.

End Session.

End DbUtils.

(** ** The identity resolver of the design (no source file implements it) *)

Module Resolver.

(** Modelled from the spec: the probe variants of section 4.1, which the
    repository does not type; the passive link-layer listener, the
    authenticated remote-query client and the vendor management-API client. *)
Inductive probe_kind := PassiveListener | AuthenticatedQuery | VendorApi.

#[global] Instance probe_kind_eq_dec : EqDecision probe_kind.
Proof. solve_decision. Defined.

(** Modelled from the spec: "an authenticated/active-probe source" as opposed
    to "a passive-listener source" (section 4.3, rule c). *)
Definition is_active (k : probe_kind) : bool :=
  match k with PassiveListener => false | _ => true end.

(** Modelled from the spec: the DiscoveryRecord of section 3, "raw probe
    output tagged with source_probe, target, timestamp, confidence_hint, and
    payload"; the repository has no such record. *)
Record DiscoveryRecord := {
  source_probe : probe_kind;
  target : string;
  timestamp : Z;
  confidence_hint : Q;
  payload : gmap string string
}.

(** Modelled from the spec: a field value together with what the merge of
    section 4.3 compares: the confidence hint, timestamp and source of the
    observation it came from. *)
Record attributed := {
  av_value : string;
  av_confidence : Q;
  av_timestamp : Z;
  av_source : probe_kind
}.

(** Modelled from the spec: the Device of section 3, reduced to its identity
    ([mac], optional [ip]), its merged fields and the probes that observed
    it. *)
Record Device := {
  mac : option string;
  ip : option string;
  fields : gmap string attributed;
  sources : list probe_kind
}.

(** Modelled from the spec: the precedence of section 4.3, "(a) higher
    confidence_hint wins; (b) on tie, more recent timestamp wins; (c) on tie,
    an authenticated/active-probe source outranks a passive-listener
    source"; on a complete tie the value already held stays. *)
Definition wins (new old : attributed) : bool :=
  if Qlt_le_dec (av_confidence old) (av_confidence new) then true
  else if Qlt_le_dec (av_confidence new) (av_confidence old) then false
  else if decide (av_timestamp old < av_timestamp new) then true
  else if decide (av_timestamp new < av_timestamp old) then false
  else is_active (av_source new) && negb (is_active (av_source old)).

(** Modelled from the spec: "merge field-by-field using precedence". *)
Definition merge_fields (new old : gmap string attributed) : gmap string attributed :=
  union_with (fun n o => Some (if wins n o then n else o)) new old.

(** Modelled from the spec: the identity candidates of a record, "mac first,
    then ip if mac absent" (section 4.3); [None] when the payload has
    neither. *)
Definition identity_key (r : DiscoveryRecord) : option string :=
  match payload r !! "mac" with
  | Some m => Some m
  | None => payload r !! "ip"
  end.

(** Modelled from the spec: the fields a record contributes, each tagged
    with the record's confidence hint, timestamp and source. *)
Definition record_fields (r : DiscoveryRecord) : gmap string attributed :=
  (fun v => {| av_value := v; av_confidence := confidence_hint r;
               av_timestamp := timestamp r; av_source := source_probe r |})
    <$> delete "mac" (delete "ip" (payload r)).

(** Modelled from the spec: one step of [Resolve] (section 4.3): look the
    device up by its identity key, create a provisional one if there is
    none, and merge the record into it; an existing address binding is
    retained. A record without identity candidates contributes nothing. *)
Definition resolve_record (devices : gmap string Device) (r : DiscoveryRecord)
    : gmap string Device :=
  match identity_key r with
  | None => devices
  | Some key =>
      let old := default {| mac := payload r !! "mac"; ip := payload r !! "ip";
                            fields := ∅; sources := [] |} (devices !! key) in
      <[key := {| mac := mac old;
                  ip := match ip old with Some a => Some a | None => payload r !! "ip" end;
                  fields := merge_fields (record_fields r) (fields old);
                  sources := if bool_decide (source_probe r ∈ sources old)
                             then sources old else sources old ++ [source_probe r] |}]>
        devices
  end.

(** Modelled from the spec: [Resolve] over the records of a round, from the
    devices of the current graph. *)
Definition resolve (records : list DiscoveryRecord) (devices : gmap string Device)
    : gmap string Device :=
  foldl resolve_record devices records.

(** Modelled from the spec: the [hostname] field of a resolved Device, as the
    scenario of section 8 reads it. *)
Definition hostname (d : Device) : option string := av_value <$> fields d !! "hostname".

End Resolver.

(** ** utils.py: images, project phases, sizes *)

Module UtilsMisc.

(** The [image_mappings] table of [load_image]. *)
Definition image_mappings : list (string * list string) :=
  [("network security monitoring",
    ["https://pixabay.com/get/g861519ec27994fa594c974795bc00c023935c5b40e5bfc50a69a7020b9d0f653e03289d53c4e246f514b70a461f54c69a893b6e45b53de5fd6c7e9c293b7f6f9_1280.jpg";
     "https://pixabay.com/get/gdc3a38e3e42ebbb448dae93ddf1f05b63207dedc48d5ed550ccd516910efd587354be4357d8493b117497d6181c803717a0296dbd96841e37c3c3c85fb43efba_1280.jpg";
     "https://pixabay.com/get/gd342e4a5ac6a455f06ab4972d3da181c634e693e5f3c972e77bd7ef7b248ff769914a9863a6655f2a5658e68b73a510af90745430eca16b00e052805e7bc7e80_1280.jpg";
     "https://pixabay.com/get/g3cd079ceb002f73c25904bc92b194bb2cb0c6aa56c6fbfe2bb89d74fc2ff33cc5e20228213fbdef1da92e3a91b1a28f678cad84e9023c4a62e35ad2606b0e5ed_1280.jpg"]);
   ("cybersecurity dashboard",
    ["https://pixabay.com/get/g209ee898a80ddd319d9ccd3ea90ff8ba28543689253df30a104d4137d0aa724efe8373ffa445c9d8aaf67b6133e7f38f3b4b6c9c6716e0393740310188a1bc24_1280.jpg";
     "https://pixabay.com/get/ge61a6c24764c476a10be7374c8dd700be45b781dcfeafca30e2837158edb5d1eb42dee41c739a321a082a1785a257bbb1f1d674c9476866ca9d943f653edfad7_1280.jpg";
     "https://pixabay.com/get/gffcf432348ae425f722cd706631e208603e086e513a500e6a091f2c56432b919f61400ab06cc304b682974b5c42c0357f3c176e2a9fe97e9ee986d9214d8ea7f_1280.jpg";
     "https://pixabay.com/get/g95936f73f40fca3a3881844227ba724e12a5c56676df58121ff3526146cd1a5e91638b5d4117c340223a4442a013f313f2b54c9950371d8baebdbd2943a1d67e_1280.jpg"]);
   ("network traffic visualization",
    ["https://pixabay.com/get/g2a66addeba13910dc5f0306eedfcc9186f111ac20afee15dbdd635065f6fc06163166dd3232a6185e85fa134f66031f93aa4e5a1dd27f54c9dabd119d4d53973_1280.jpg";
     "https://pixabay.com/get/gbc822417b24f8c3371a367dce165b7072391dc04073e7dadd2800f1810948387bc649bb0e93de667f9d3006417d80ca71f2219d08e10f00f80c94fcc066568d8_1280.jpg"])].

(** [d.get(k)] on a dictionary given as its items *)
Definition mapping_get (query : string) (d : list (string * list string))
    : option (list string) :=
  snd <$> List.find (fun kv => String.eqb (fst kv) query) d.








End UtilsMisc.

(** ** str methods *)

Module Text.



End Text.

(** ** data/mock_generator.py: security events *)

Module MockEvents.


End MockEvents.

(** * Properties stated about the code *)

(** The valid range of a percentage metric. *)
Definition in_valid_range (x : Q) : Prop := (0.1 <= x /\ x <= 99.9)%Q.

Definition metric_in_range (m : MockGenerator.system_metric) : Prop :=
  in_valid_range (MockGenerator.cpu_usage m)
  /\ in_valid_range (MockGenerator.memory_usage m)
  /\ in_valid_range (MockGenerator.disk_io m)
  /\ in_valid_range (MockGenerator.network_throughput m).

(** A "Status Change" record whose text names two distinct statuses. *)
Definition describes_status_change (c : MockGenerator.topology_change) : Prop :=
  exists old_status new_status,
    old_status ∈ MockGenerator.status_names
    /\ new_status ∈ MockGenerator.status_names
    /\ old_status <> new_status
    /\ MockGenerator.details c
       = MockGenerator.device_type c +:+ " status changed from " +:+ old_status
         +:+ " to " +:+ new_status.

(** What the [i]-th round of the vulnerability loop stores: the [i]-th
    vulnerability type, a severity whose index is at most [min(i, 2)], the
    affected counts in their ranges and a risk score in the band of the
    severity. *)
Definition finding_of_round (i : Z) (f : TopologyPage.finding) : Prop :=
  TopologyPage.vulnerability_types !! Z.to_nat i = Some (TopologyPage.Vulnerability f)
  /\ (exists k, 0 <= k <= Z.min i 2
       /\ TopologyPage.severity_levels !! Z.to_nat k = Some (TopologyPage.Severity f))
  /\ 1 <= TopologyPage.Affected_Nodes f <= 5
  /\ 0 <= TopologyPage.Affected_Links f <= 3
  /\ ((TopologyPage.Severity f = "Critical" /\ 80 <= TopologyPage.Risk_Score f <= 100)
      \/ (TopologyPage.Severity f = "High" /\ 60 <= TopologyPage.Risk_Score f <= 79)
      \/ (TopologyPage.Severity f = "Medium" /\ 40 <= TopologyPage.Risk_Score f <= 59)).

(** The two generator states of the C1 counterexample: they differ in the
    draw that picks the severity of the second finding only. *)
Definition rng_run_a : Random.rng := Random.of_list [0; 0; 0; 0; 0; 0; 0; 0; 0; 0].
Definition rng_run_b : Random.rng := Random.of_list [0; 0; 0; 0; 0; 1; 0; 0; 0; 0].

(** An insertion that is atomic with respect to errors: when it raises, the
    committed tables are what they were and the session holds nothing
    pending; when it returns, it returns the primary key of one row appended
    to its table, every other table being untouched. *)
Definition atomic_insert (op : DbUtils.dict -> M DbUtils.world (option Z))
    (t : DbUtils.table) : Prop :=
  forall data w,
    match op data w with
    | (Returns r, w') =>
        exists id cols,
          r = Some id
          /\ DbUtils.tables w'
             = DbUtils.insert_row t {| DbUtils.row_id := id; DbUtils.row_cols := cols |}
                 (DbUtils.tables w)
          /\ DbUtils.working w' = None /\ DbUtils.session_new w' = []
    | (Raises e, w') =>
        DbUtils.tables w' = DbUtils.tables w
        /\ DbUtils.working w' = None /\ DbUtils.session_new w' = []
    | (Exhausted, _) => False
    end.

(** The steps every insertion shares once its dictionary is ready. *)
Definition insert_steps (eng : DbUtils.engine) (t : DbUtils.table) (data : DbUtils.dict)
    : M DbUtils.world (option Z) :=
  obj <- DbUtils.construct eng t data ;;
  DbUtils.session_add obj ;;;
  DbUtils.session_commit eng ;;;
  DbUtils.read_id eng obj.

(** An engine for the examples: the constructor accepts every dictionary, an
    INSERT into network_devices is refused when the device_id is taken, and
    primary keys count up from 1. *)
Definition eng_unique_device_id : DbUtils.engine := {|
  DbUtils.construct_error := fun _ _ => None;
  DbUtils.flush_error := fun view t cols =>
    match t with
    | DbUtils.NetworkDevice =>
        if existsb (fun r => bool_decide
                      (DbUtils.dict_get "device_id" (DbUtils.row_cols r)
                       = DbUtils.dict_get "device_id" cols))
             (view t)
        then Some (mk_exn IntegrityError "duplicate key value violates unique constraint")
        else None
    | _ => None
    end;
  DbUtils.allocate_id := fun view t => 1 + Z.of_nat (length (view t));
  DbUtils.refresh_error := fun _ _ _ => None
|}.

(** An engine that stores every row and loses its connection afterwards:
    the INSERT and the COMMIT go through, the SELECT that loads a row again
    fails. *)
Definition eng_reload_fails : DbUtils.engine := {|
  DbUtils.construct_error := fun _ _ => None;
  DbUtils.flush_error := fun _ _ _ => None;
  DbUtils.allocate_id := fun view t => 1 + Z.of_nat (length (view t));
  DbUtils.refresh_error := fun _ _ _ =>
    Some (mk_exn OperationalError "server closed the connection unexpectedly")
|}.

Definition empty_world : DbUtils.world := {|
  DbUtils.tables := fun _ => [];
  DbUtils.working := None;
  DbUtils.heap := [];
  DbUtils.session_new := [];
  DbUtils.stdout := [];
  DbUtils.journal := []
|}.

Definition device_sw1 (status : string) : DbUtils.dict :=
  [("device_id", DbUtils.VStr "DEV-00001"); ("device_name", DbUtils.VStr "hq-switch-001");
   ("device_type", DbUtils.VStr "Switch"); ("status", DbUtils.VStr status)].

(** The dictionary an insertion hands to the constructor: the status of a
    device, when it is a string, replaced by the member of [DeviceStatus]
    with that value; likewise the severity of an event; unchanged for the
    three other tables. *)
Definition convert_status (d : DbUtils.dict) : outcome DbUtils.dict :=
  match DbUtils.dict_get "status" d with
  | Some (DbUtils.VStr s) =>
      match Models.DeviceStatus_call s with
      | Returns st => Returns (DbUtils.dict_set "status" (DbUtils.VStatus st) d)
      | Raises e => Raises e
      | Exhausted => Exhausted
      end
  | _ => Returns d
  end.

Definition convert_severity (d : DbUtils.dict) : outcome DbUtils.dict :=
  match DbUtils.dict_get "severity" d with
  | Some (DbUtils.VStr s) =>
      match Models.AlertSeverity_call s with
      | Returns sev => Returns (DbUtils.dict_set "severity" (DbUtils.VSeverity sev) d)
      | Raises e => Raises e
      | Exhausted => Exhausted
      end
  | _ => Returns d
  end.

(** The tables once the row of [cols] is stored in [t] under the key the
    engine assigns. *)
Definition stored (eng : DbUtils.engine) (t : DbUtils.table) (cols : DbUtils.dict)
    (tabs : DbUtils.table -> list DbUtils.row) : DbUtils.table -> list DbUtils.row :=
  DbUtils.insert_row t
    {| DbUtils.row_id := DbUtils.allocate_id eng tabs t; DbUtils.row_cols := cols |} tabs.

(** Where an insertion raises [e], which session calls it has made in its
    [try] block by then, and what the tables hold afterwards: the
    conversion or the constructor raises before any call, and a refused
    INSERT raises inside [commit], all three with the tables as they were;
    a failure to load the key again raises after [commit] has stored the
    row. *)
Inductive raises_at (eng : DbUtils.engine) (prepare : DbUtils.dict -> outcome DbUtils.dict)
    (t : DbUtils.table) (data : DbUtils.dict) (tabs : DbUtils.table -> list DbUtils.row)
    (e : exn) : list DbUtils.session_call -> (DbUtils.table -> list DbUtils.row) -> Prop :=
| at_conversion :
    prepare data = Raises e ->
    raises_at eng prepare t data tabs e [] tabs
| at_constructor cols :
    prepare data = Returns cols ->
    DbUtils.construct_error eng t cols = Some e ->
    raises_at eng prepare t data tabs e [] tabs
| at_insert cols :
    prepare data = Returns cols ->
    DbUtils.construct_error eng t cols = None ->
    DbUtils.flush_error eng tabs t cols = Some e ->
    raises_at eng prepare t data tabs e [DbUtils.call_add; DbUtils.call_commit] tabs
| at_id_reload cols :
    prepare data = Returns cols ->
    DbUtils.construct_error eng t cols = None ->
    DbUtils.flush_error eng tabs t cols = None ->
    DbUtils.refresh_error eng (stored eng t cols tabs) t (DbUtils.allocate_id eng tabs t)
      = Some e ->
    raises_at eng prepare t data tabs e [DbUtils.call_add; DbUtils.call_commit]
      (stored eng t cols tabs).

(** An insertion that is atomic up to its commit. It returns or raises and
    leaves the session closed, with no transaction and nothing pending.
    When it returns, every step went through, the value is the key of the
    one row stored and nothing is printed. When it raises [e], [e] is the
    exception of the step that failed; the tables are as they were unless
    that step is the loading of the key after the commit; and when [e] is an
    [Exception] the handler has called [rollback] before the closing
    [close] and printed [msg] followed by the text of [e]. *)
Definition insertion_spec (eng : DbUtils.engine)
    (prepare : DbUtils.dict -> outcome DbUtils.dict) (t : DbUtils.table) (msg : string)
    (op : DbUtils.dict -> M DbUtils.world (option Z)) : Prop :=
  forall data w,
    let '(r, w') := op data w in
    DbUtils.working w' = None /\ DbUtils.session_new w' = []
    /\ match r with
       | Returns id =>
           exists cols,
             prepare data = Returns cols
             /\ DbUtils.construct_error eng t cols = None
             /\ DbUtils.flush_error eng (DbUtils.tables w) t cols = None
             /\ DbUtils.refresh_error eng (stored eng t cols (DbUtils.tables w)) t
                  (DbUtils.allocate_id eng (DbUtils.tables w) t) = None
             /\ id = Some (DbUtils.allocate_id eng (DbUtils.tables w) t)
             /\ DbUtils.tables w' = stored eng t cols (DbUtils.tables w)
             /\ DbUtils.stdout w' = DbUtils.stdout w
             /\ DbUtils.journal w'
                = DbUtils.journal w
                  ++ [DbUtils.call_close; DbUtils.call_add; DbUtils.call_commit;
                      DbUtils.call_close]
       | Raises e =>
           exists calls,
             raises_at eng prepare t data (DbUtils.tables w) e calls (DbUtils.tables w')
             /\ DbUtils.stdout w'
                = DbUtils.stdout w ++ (if is_Exception e then [msg +:+ str e] else [])
             /\ DbUtils.journal w'
                = DbUtils.journal w ++ [DbUtils.call_close] ++ calls
                  ++ (if is_Exception e then [DbUtils.call_rollback] else [])
                  ++ [DbUtils.call_close]
       | Exhausted => False
       end.

(** A library call that behaves ordinarily: it returns, or it raises an
    instance of [Exception]. *)
Definition ordinary {A} (o : outcome A) : Prop :=
  match o with
  | Returns _ => True
  | Raises e => is_Exception e = true
  | Exhausted => False
  end.

Record ordinary_network (net : DeviceDiscovery.network) : Prop := {
  ord_sniff : forall i f t, ordinary (DeviceDiscovery.sniff net i f t);
  ord_get_api : forall h u p n, ordinary (DeviceDiscovery.routeros_get_api net h u p n);
  ord_get : forall r, ordinary (DeviceDiscovery.routeros_get net r);
  ord_connect : forall h u p, ordinary (DeviceDiscovery.ssh_connect net h u p);
  ord_exec : forall c, ordinary (DeviceDiscovery.ssh_exec_command net c);
  ord_decode : forall b, ordinary (DeviceDiscovery.decode net b)
}.

(** [isinstance(v, str)] *)
Definition is_text (v : DeviceDiscovery.pyval) : bool :=
  match v with DeviceDiscovery.PyStr _ => true | _ => false end.

(** The exception of the first call of [discover_mikrotik] that raises, and
    likewise for [discover_cisco]. *)
Definition mikrotik_failure (net : DeviceDiscovery.network)
    (host username password : string) : option exn :=
  match DeviceDiscovery.routeros_get_api net host username password 8728 with
  | Raises e => Some e
  | Exhausted => None
  | Returns _ =>
      match DeviceDiscovery.routeros_get net "/system/identity" with
      | Raises e => Some e
      | Exhausted => None
      | Returns _ =>
          match DeviceDiscovery.routeros_get net "/ip/neighbor" with
          | Raises e => Some e
          | Exhausted => None
          | Returns _ =>
              match DeviceDiscovery.routeros_get net "/interface" with
              | Raises e => Some e
              | _ => None
              end
          end
      end
  end.

Definition cisco_failure (net : DeviceDiscovery.network)
    (host username password : string) : option exn :=
  match DeviceDiscovery.ssh_connect net host username password with
  | Raises e => Some e
  | Exhausted => None
  | Returns _ =>
      match DeviceDiscovery.ssh_exec_command net "show cdp neighbors detail" with
      | Raises e => Some e
      | Exhausted => None
      | Returns raw =>
          match DeviceDiscovery.decode net raw with
          | Raises e => Some e
          | _ => None
          end
      end
  end.

(** What a passive listener gives back for the outcome [call] of its capture:
    [True] when the capture returned, whatever it captured, and the text of
    the exception otherwise; the two are told apart by type. *)
Definition listener_result (call : outcome (list DeviceDiscovery.frame))
    (run : outcome DeviceDiscovery.pyval * unit) : Prop :=
  exists v, run = (Returns v, tt)
    /\ (is_text v = true <-> exists e, call = Raises e)
    /\ (forall e, call = Raises e -> v = DeviceDiscovery.PyStr (str e))
    /\ (forall frames, call = Returns frames -> v = DeviceDiscovery.PyBool true).

(** Four networks: a quiet one where every call succeeds with nothing to
    report, one where two frames are captured, one where the SSH connection
    drops with an exception that has no message, and one where the RouterOS
    neighbour query times out after the identity was read. *)
Definition net_quiet : DeviceDiscovery.network := {|
  DeviceDiscovery.sniff := fun _ _ _ => Returns [];
  DeviceDiscovery.routeros_get_api := fun _ _ _ _ => Returns tt;
  DeviceDiscovery.routeros_get := fun _ => Returns [];
  DeviceDiscovery.ssh_connect := fun _ _ _ => Returns tt;
  DeviceDiscovery.ssh_exec_command := fun _ => Returns [];
  DeviceDiscovery.decode := fun _ => Returns ""
|}.

Definition net_busy : DeviceDiscovery.network := {|
  DeviceDiscovery.sniff := fun _ _ _ => Returns ["lldp frame from sw1"; "lldp frame from sw2"];
  DeviceDiscovery.routeros_get_api := fun _ _ _ _ => Returns tt;
  DeviceDiscovery.routeros_get := fun _ => Returns [];
  DeviceDiscovery.ssh_connect := fun _ _ _ => Returns tt;
  DeviceDiscovery.ssh_exec_command := fun _ => Returns [];
  DeviceDiscovery.decode := fun _ => Returns ""
|}.

Definition net_ssh_down : DeviceDiscovery.network := {|
  DeviceDiscovery.sniff := fun _ _ _ => Returns [];
  DeviceDiscovery.routeros_get_api := fun _ _ _ _ => Returns tt;
  DeviceDiscovery.routeros_get := fun _ => Returns [];
  DeviceDiscovery.ssh_connect := fun _ _ _ => Raises (mk_exn EOFError "");
  DeviceDiscovery.ssh_exec_command := fun _ => Returns [];
  DeviceDiscovery.decode := fun _ => Returns ""
|}.

Definition net_api_timeout : DeviceDiscovery.network := {|
  DeviceDiscovery.sniff := fun _ _ _ => Returns [];
  DeviceDiscovery.routeros_get_api := fun _ _ _ _ => Returns tt;
  DeviceDiscovery.routeros_get := fun r =>
    if String.eqb r "/system/identity" then Returns [[("name", "core-router")]]
    else Raises (mk_exn OSError "timed out");
  DeviceDiscovery.ssh_connect := fun _ _ _ => Returns tt;
  DeviceDiscovery.ssh_exec_command := fun _ => Returns [];
  DeviceDiscovery.decode := fun _ => Returns ""
|}.

(** The graphs [add_node] and [add_edge] can build: the two dictionaries have
    the same keys and every neighbour is a node. *)
Definition wf_graph (G : Nx.Graph) : Prop :=
  dom (Nx._adj G) = dom (Nx._node G)
  /\ forall u nbrs, Nx._adj G !! u = Some nbrs -> nbrs ⊆ dom (Nx._node G).

(** Graph consistency: both endpoints of every edge are nodes. *)
Definition edges_closed (G : Nx.Graph) : Prop :=
  forall u v, (u, v) ∈ Nx.edges G -> u ∈ Nx.nodes G /\ v ∈ Nx.nodes G.

(** A generator state for a run of [create_network_graph] that draws a
    self-loop candidate and a repeated edge before it has three edges. *)
Definition rng_small_graph : Random.rng :=
  Random.of_list [0; 0; 1; 3; 2; 4; 3; 0;  0; 1;  2; 2;  1; 0;  2; 3;  3; 1].

(** The centrality stored for node [v] is the rational [q]. *)
Definition centrality_is (b : gmap Z Q) (v : Z) (q : Q) : Prop :=
  match b !! v with
  | Some x => (x == q)%Q
  | None => False
  end.

(** The star on the nodes 0..4 whose hub is [hub]. *)
Definition star5 (hub : Z) : Nx.Graph :=
  Nx.star_graph hub (filter (fun leaf => leaf <> hub) [0; 1; 2; 3; 4]).

(** [b] is a neighbour of [a]; a path is a chain of neighbours. *)
Definition edge_of (G : Nx.Graph) (a b : Z) : Prop := b ∈ Nx._adj G !!! a.
Definition reachable (G : Nx.Graph) : Z -> Z -> Prop := rtc (edge_of G).

(** A disconnected graph: two of its nodes are joined by no path. *)
Definition disconnected (G : Nx.Graph) : Prop :=
  exists u v, u ∈ dom (Nx._node G) /\ v ∈ dom (Nx._node G) /\ ~ reachable G u v.

(** Every node carries the attribute [key]. *)
Definition has_attr (key : string) (G : Nx.Graph) : Prop :=
  forall n a, Nx._node G !! n = Some a -> is_Some (a !! key).

(** What the breadth-first search maintains from [source]: the nodes seen are
    nodes of the graph reachable from [source], the next level has been
    seen, and the pairs yielded are keyed by the nodes seen. *)
Record bfs_inv (G : Nx.Graph) (source : Z) (st : Nx.bfs_state) : Prop := {
  inv_source : source ∈ Nx.seen st;
  inv_dom : Nx.seen st ⊆ dom (Nx._adj G);
  inv_reach : forall x, x ∈ Nx.seen st -> reachable G source x;
  inv_next : forall x, x ∈ Nx.nextlevel st -> x ∈ Nx.seen st;
  inv_keys : list_to_set (Nx.found st).*1 = Nx.seen st
}.

(** The number of nodes added to [seen] is the number appended to
    [nextlevel]. *)
Definition grows (st st' : Nx.bfs_state) : Prop :=
  (size (Nx.seen st') + length (Nx.nextlevel st)
   = size (Nx.seen st) + length (Nx.nextlevel st'))%nat.

(** The exception [nx.diameter] raises on a disconnected graph. *)
Definition not_connected_error : exn :=
  mk_exn NetworkXError "Found infinite path length because the graph is not connected".

(** The network of four nodes and one edge that [create_network_graph]
    builds from [rng_small_graph]. *)
Definition small_disconnected_graph : Nx.Graph :=
  match fst (Utils.create_network_graph 6 4 1 rng_small_graph) with
  | Returns G => G
  | _ => Nx.empty_graph
  end.

(** The two observations of the scenario of section 8. *)
Definition obs_authenticated : Resolver.DiscoveryRecord := {|
  Resolver.source_probe := Resolver.AuthenticatedQuery;
  Resolver.target := "10.0.0.1";
  Resolver.timestamp := 100;
  Resolver.confidence_hint := 0.9;
  Resolver.payload := {[ "mac" := "aa:bb:cc:dd:ee:ff"; "hostname" := "sw1" ]}
|}.

Definition obs_passive : Resolver.DiscoveryRecord := {|
  Resolver.source_probe := Resolver.PassiveListener;
  Resolver.target := "eth0";
  Resolver.timestamp := 105;
  Resolver.confidence_hint := 0.4;
  Resolver.payload := {[ "mac" := "aa:bb:cc:dd:ee:ff"; "hostname" := "switch-unknown" ]}
|}.

(** A generator state on which the first change drawn is a status change whose
    new status is re-drawn five times. *)
Definition rng_status_change : Random.rng :=
  Random.of_list [1; 2; 3; 4; 0; 5; 0; 0; 0; 0; 0; 0; 4; 1; 5; 1; 1; 1; 2; 7].








(** * Verification *)

(** ** Generic facts on loops *)

Section ForEach.
Context {S A B : Type}.
Variable I : list A -> B -> Prop.
Variable P : A -> Prop.
Variable body : A -> B -> M S B.

(** Total form: every round returns and re-establishes the invariant. *)
Lemma for_each_returns xs :
  (forall pre x acc s, P x -> I pre acc ->
     exists acc' s', body x acc s = (Returns acc', s') /\ I (pre ++ [x]) acc') ->
  Forall P xs -> forall pre acc s, I pre acc ->
  exists acc' s', for_each xs body acc s = (Returns acc', s') /\ I (pre ++ xs) acc'.
Proof.
  intros body_ok. induction xs as [|x xs IH]; intros HP pre acc s HI; simpl.
  - exists acc, s. by rewrite app_nil_r.
  - apply Forall_cons in HP as [Hx HP].
    destruct (body_ok pre x acc s Hx HI) as (acc1 & s1 & Hb & HI1).
    unfold bind at 1. rewrite Hb.
    destruct (IH HP _ _ s1 HI1) as (acc2 & s2 & Hf & HI2).
    exists acc2, s2. split; [done|]. by rewrite <- app_assoc in HI2.
Qed.

(** Partial form: a round that returns re-establishes the invariant. *)
Lemma for_each_sound xs :
  (forall pre x acc s acc' s', P x -> I pre acc ->
     body x acc s = (Returns acc', s') -> I (pre ++ [x]) acc') ->
  Forall P xs -> forall pre acc s acc' s', I pre acc ->
  for_each xs body acc s = (Returns acc', s') -> I (pre ++ xs) acc'.
Proof.
  intros body_ok. induction xs as [|x xs IH]; intros HP pre acc s acc' s' HI; simpl.
  - intros [= <- <-]. by rewrite app_nil_r.
  - apply Forall_cons in HP as [Hx HP]. unfold bind at 1.
    destruct (body x acc s) as [[acc1| |] s1] eqn:Hb; [|done|done].
    intros Hf. replace (pre ++ x :: xs) with ((pre ++ [x]) ++ xs)
      by (by rewrite <- app_assoc).
    eapply IH; [done| |done]. by eapply body_ok.
Qed.
End ForEach.

(** ** Generic facts on the monad and on random draws *)

Lemma bind_returns {S A B} (m : M S A) (k : A -> M S B) s a s' :
  m s = (Returns a, s') -> bind m k s = k a s'.
Proof. unfold bind. by intros ->. Qed.

Lemma bind_raises {S A B} (m : M S A) (k : A -> M S B) s e s' :
  m s = (Raises e, s') -> bind m k s = (Raises e, s').
Proof. unfold bind. by intros ->. Qed.

Lemma bind_exhausted {S A B} (m : M S A) (k : A -> M S B) s s' :
  m s = (Exhausted, s') -> bind m k s = (Exhausted, s').
Proof. unfold bind. by intros ->. Qed.

Lemma uniform_returns a b g :
  exists q g', Random.uniform a b g = (Returns q, g').
Proof. by eexists _, _. Qed.

(** Runs the leading [uniform] draw of the goal's computation. *)
Ltac draw_uniform g :=
  let q := fresh "q" in let g' := fresh "g" in let E := fresh "E" in
  match goal with
  | |- context [bind (Random.uniform ?a ?b) ?k g] =>
      destruct (uniform_returns a b g) as (q & g' & E);
      rewrite (bind_returns _ k g q g' E); clear E; clear g; rename g' into g
  end.

Lemma randint_returns a b g : a <= b ->
  exists k g', Random.randint a b g = (Returns k, g') /\ a <= k <= b.
Proof.
  intros Hab. unfold Random.randint. destruct (decide (b < a)); [lia|].
  eexists _, _. split; [reflexivity|].
  pose proof (Z.mod_pos_bound (Random.tape g (Random.pos g)) (b - a + 1)). lia.
Qed.

Lemma bind_inv {S A B} (m : M S A) (k : A -> M S B) s b s' :
  bind m k s = (Returns b, s') ->
  exists a s1, m s = (Returns a, s1) /\ k a s1 = (Returns b, s').
Proof.
  unfold bind. destruct (m s) as [[a| |] s1]; [|done|done]. by exists a, s1.
Qed.

Lemma ret_inv {S A} (a b : A) (s s' : S) :
  ret a s = (Returns b, s') -> a = b /\ s = s'.
Proof. by intros [= -> ->]. Qed.

Lemma choice_returns {A} (xs : list A) g : xs <> [] ->
  exists x g', Random.choice xs g = (Returns x, g') /\ x ∈ xs.
Proof.
  intros Hxs. destruct xs as [|x0 xs]; [done|]. unfold Random.choice.
  eexists _, _. split; [reflexivity|].
  apply list_elem_of_In, nth_In.
  pose proof (Z.mod_pos_bound (Random.tape g (Random.pos g))
                (Z.of_nat (length (x0 :: xs)))) as Hb.
  simpl length in *. lia.
Qed.

Lemma choice_inv {A} (xs : list A) g x g' :
  Random.choice xs g = (Returns x, g') -> x ∈ xs.
Proof.
  destruct xs as [|x0 xs]; [done|].
  destruct (choice_returns (x0 :: xs) g ltac:(done)) as (y & g1 & -> & Hin).
  by intros [= <- _].
Qed.

Lemma randint_inv a b g k g' :
  Random.randint a b g = (Returns k, g') -> a <= k <= b.
Proof.
  destruct (decide (b < a)) as [Hlt|Hge].
  - unfold Random.randint. by destruct (decide (b < a)).
  - destruct (randint_returns a b g ltac:(lia)) as (y & g1 & -> & Hin).
    by intros [= <- _].
Qed.

#[global] Arguments Random.choice : simpl never.
#[global] Arguments Random.randint : simpl never.
#[global] Arguments Random.uniform : simpl never.

(** Runs the leading [randint] draw of the goal's computation; [H] names the
    bounds of the value drawn. *)
Ltac draw_randint g H :=
  let v := fresh "v" in let g' := fresh "g" in let E := fresh "E" in
  match goal with
  | |- context [bind (Random.randint ?a ?b) ?k g] =>
      destruct (randint_returns a b g ltac:(lia)) as (v & g' & E & H);
      rewrite (bind_returns _ k g v g' E); clear E; clear g; rename g' into g
  end.

(** Runs the leading [choice] draw of the goal's computation. *)
Ltac draw_choice g H :=
  let v := fresh "v" in let g' := fresh "g" in let E := fresh "E" in
  match goal with
  | |- context [bind (Random.choice ?xs) ?k g] =>
      destruct (choice_returns xs g ltac:(done)) as (v & g' & E & H);
      rewrite (bind_returns _ k g v g' E); clear E; clear g; rename g' into g
  end.

(** Splits a hypothesis [bind m k s = (Returns _, _)] into its two runs. *)
Ltac inv_bind H H1 :=
  let a := fresh "a" in let s := fresh "s" in
  apply bind_inv in H as (a & s & H1 & H).

(** ** database/models.py: the device status *)

Lemma DeviceStatus_call_value s :
  Models.DeviceStatus_call (Models.DeviceStatus_value s) = Returns s.
Proof. by destruct s. Qed.

Lemma DeviceStatus_call_inv v s :
  Models.DeviceStatus_call v = Returns s -> v = Models.DeviceStatus_value s.
Proof.
  unfold Models.DeviceStatus_call.
  destruct (List.find _ _) as [s'|] eqn:E; [|done].
  intros [= ->]. apply find_some in E as [_ E]. by apply String.eqb_eq in E.
Qed.

Lemma DeviceStatus_call_not_exhausted v : Models.DeviceStatus_call v <> Exhausted.
Proof. unfold Models.DeviceStatus_call. by destruct (List.find _ _). Qed.

Lemma AlertSeverity_call_not_exhausted v : Models.AlertSeverity_call v <> Exhausted.
Proof. unfold Models.AlertSeverity_call. by destruct (List.find _ _). Qed.

(** C4 (as stated, refuted): no member of [DeviceStatus] is called UNKNOWN or
    has the value "unknown" (in either spelling), and [DeviceStatus("unknown")]
    raises [ValueError]: Unknown is not a representable device status. *)
Lemma C4_unknown_not_representable :
  (forall s, Models.DeviceStatus_name s <> "UNKNOWN"
             /\ Models.DeviceStatus_value s <> "unknown"
             /\ Models.DeviceStatus_value s <> "Unknown")
  /\ Models.DeviceStatus_call "unknown"
     = Raises (mk_exn ValueError "unknown is not a valid DeviceStatus")
  /\ Models.DeviceStatus_call "Unknown"
     = Raises (mk_exn ValueError "Unknown is not a valid DeviceStatus")
  /\ length Models.DeviceStatus_members = 4%nat.
Proof. split; [intros []; done | done]. Qed.

(** C4 (amended): the operational status of a device ranges over exactly the
    four values online, warning, offline and maintenance: these four are
    pairwise distinct members, every member is one of them, a string converts
    to a status exactly when it is one of the four values, and every status
    the inventory generator draws converts. *)
Theorem C4_device_status_four_values :
  NoDup Models.DeviceStatus_members
  /\ (forall s, s ∈ Models.DeviceStatus_members)
  /\ (forall v, (exists s, Models.DeviceStatus_call v = Returns s)
                <-> v ∈ ["online"; "warning"; "offline"; "maintenance"])
  /\ Forall (fun v => exists s, Models.DeviceStatus_call v = Returns s)
            MockGenerator.statuses.
Proof.
  split; [|split; [|split]].
  - unfold Models.DeviceStatus_members.
    repeat (apply NoDup_cons; split;
            [rewrite ?elem_of_cons, elem_of_nil; intuition discriminate|]).
    apply NoDup_nil_2.
  - intros []; unfold Models.DeviceStatus_members; set_solver.
  - intros v; split.
    + intros [s Hs]. apply DeviceStatus_call_inv in Hs as ->.
      destruct s; simpl; set_solver.
    + intros Hv. repeat (apply elem_of_cons in Hv as [->|Hv]; [by eexists|]).
      by apply elem_of_nil in Hv.
  - unfold MockGenerator.statuses. repeat (apply Forall_cons; split; [by eexists|]).
    apply Forall_nil_2.
Qed.

(** ** data/mock_generator.py: system metrics *)

Lemma clamp_in_range (x : Q) : in_valid_range (Py.max 0.1 (Py.min 99.9 x)).
Proof.
  unfold in_valid_range, Py.max, Py.min.
  destruct (Qlt_le_dec x 99.9); destruct (Qlt_le_dec 0.1 _); split; lra.
Qed.

(** C9: for every [num_points], [server_id], clock value and state of the
    random generator, [generate_system_metrics] returns a list of
    [num_points] records (none when [num_points] is negative) in which each of
    cpu_usage, memory_usage, disk_io and network_throughput lies in
    [0.1, 99.9]. *)
Theorem C9_system_metrics_in_range num_points server_id now g :
  exists ms g',
    MockGenerator.generate_system_metrics num_points server_id now g = (Returns ms, g')
    /\ length ms = Z.to_nat num_points
    /\ Forall metric_in_range ms.
Proof.
  unfold MockGenerator.generate_system_metrics.
  do 8 draw_uniform g.
  match goal with |- context [for_each ?l ?b _ _] =>
    destruct (for_each_returns
                (fun pre acc => length acc = length pre /\ Forall metric_in_range acc)
                (fun _ => True) b l) with
      (pre := @nil (nat * Z)) (acc := @nil MockGenerator.system_metric) (s := g)
      as (ms & g' & Hrun & Hlen & Hall)
  end.
  - intros pre [i t] acc s _ [Hlen Hall].
    do 4 draw_uniform s.
    assert (exists sid s',
      (if MockGenerator.truthy server_id then ret (default "" server_id)
       else (n <- Random.randint 1 10 ;; ret ("srv-" +:+ fmt_03d n))) s
      = (Returns sid, s')) as (sid & s' & Hsid).
    { destruct (MockGenerator.truthy server_id); [by eexists _, _|].
      destruct (randint_returns 1 10 s) as (k & s' & Hk & _); [lia|].
      rewrite (bind_returns _ _ _ _ _ Hk). by eexists _, _. }
    rewrite (bind_returns _ _ _ _ _ Hsid). eexists _, _. split; [reflexivity|]. split.
    + rewrite !length_app. simpl. lia.
    + apply Forall_app. split; [done|]. apply Forall_singleton.
      repeat split; apply clamp_in_range.
  - by apply Forall_forall.
  - done.
  - exists ms, g'. split; [done|]. split; [|done].
    rewrite Hlen. simpl. rewrite length_imap. unfold range. by rewrite !length_fmap, length_seq.
Qed.

(** ** pages/4_Network_Topology.py: the vulnerability table *)

(** C1 (as stated, refuted): two runs whose findings have the same affected
    node and link counts (the table reads nothing else: neither the graph nor
    a centrality) give the second finding different severities and different
    risk scores, because the severity index is a random draw. *)
Lemma C1_severity_is_drawn_at_random :
  exists fa fb,
    fst (TopologyPage.vuln_data rng_run_a) = Returns fa
    /\ fst (TopologyPage.vuln_data rng_run_b) = Returns fb
    /\ TopologyPage.Affected_Nodes <$> fa = TopologyPage.Affected_Nodes <$> fb
    /\ TopologyPage.Affected_Links <$> fa = TopologyPage.Affected_Links <$> fb
    /\ TopologyPage.Severity <$> fa
       = ["Critical"; "Critical"; "Critical"; "Critical"; "Critical"]
    /\ TopologyPage.Severity <$> fb
       = ["Critical"; "High"; "Critical"; "Critical"; "Critical"]
    /\ TopologyPage.Risk_Score <$> fa = [80; 80; 80; 80; 80]
    /\ TopologyPage.Risk_Score <$> fb = [80; 60; 80; 80; 80].
Proof.
  eexists _, _.
  split; [vm_compute; reflexivity|]. split; [vm_compute; reflexivity|].
  repeat split.
Qed.

(** C1 (amended): for every state of the random generator the loop returns
    five findings, one per vulnerability type in order; the severity of the
    [i]-th is one of Critical, High, Medium at an index of at most [min(i, 2)]
    (so the first is always Critical) and its risk score lies in the band of
    that severity: 80..100, 60..79 or 40..59. *)
Theorem C1_vuln_data_bands g :
  exists fs g',
    TopologyPage.vuln_data g = (Returns fs, g')
    /\ Forall2 finding_of_round (range 5) fs.
Proof.
  unfold TopologyPage.vuln_data.
  destruct (for_each_returns (fun pre acc => Forall2 finding_of_round pre acc)
              (fun i => 0 <= i < 5)
              (fun i vuln_data =>
         vuln_type <- getitem TopologyPage.vulnerability_types i ;;
         k <- Random.randint 0 (Z.min i 2) ;;
         severity <- getitem TopologyPage.severity_levels k ;;
         affected_nodes <- Random.randint 1 5 ;;
         affected_links <- Random.randint 0 3 ;;
         risk_score <-
           (if String.eqb severity "Critical" then Random.randint 80 100
            else if String.eqb severity "High" then Random.randint 60 79
            else Random.randint 40 59) ;;
         action <- Random.choice ["redundancy"; "load balancing"; "failover"; "monitoring"] ;;
         ret (vuln_data ++ [{| TopologyPage.Vulnerability := vuln_type;
                               TopologyPage.Severity := severity;
                               TopologyPage.Affected_Nodes := affected_nodes;
                               TopologyPage.Affected_Links := affected_links;
                               TopologyPage.Risk_Score := risk_score;
                               TopologyPage.Recommendation := "Implement " +:+ action
                                                 +:+ " for affected components" |}]))
              (range 5)) with (pre := @nil Z) (acc := @nil TopologyPage.finding) (s := g)
    as (fs & g' & Hrun & Hall).
  - intros pre i acc s Hi Hacc.
    assert (i = 0 \/ i = 1 \/ i = 2 \/ i = 3 \/ i = 4) as Hcases by lia.
    assert (forall (sev : string) (k : Z) (s0 : Random.rng) vt,
      TopologyPage.vulnerability_types !! Z.to_nat i = Some vt ->
      0 <= k <= Z.min i 2 ->
      TopologyPage.severity_levels !! Z.to_nat k = Some sev ->
      exists acc' s',
        (affected_nodes <- Random.randint 1 5 ;;
         affected_links <- Random.randint 0 3 ;;
         risk_score <-
           (if String.eqb sev "Critical" then Random.randint 80 100
            else if String.eqb sev "High" then Random.randint 60 79
            else Random.randint 40 59) ;;
         action <- Random.choice ["redundancy"; "load balancing"; "failover"; "monitoring"] ;;
         ret (acc ++ [{| TopologyPage.Vulnerability := vt;
                         TopologyPage.Severity := sev;
                         TopologyPage.Affected_Nodes := affected_nodes;
                         TopologyPage.Affected_Links := affected_links;
                         TopologyPage.Risk_Score := risk_score;
                         TopologyPage.Recommendation := "Implement " +:+ action
                                           +:+ " for affected components" |}])) s0
        = (Returns acc', s') /\ Forall2 finding_of_round (pre ++ [i]) acc') as Hrest.
    { intros sev k s0 vt Hvt Hk Hsev.
      draw_randint s0 Hn. draw_randint s0 Hl.
      assert (k = 0 \/ k = 1 \/ k = 2) as [->|[->| ->]] by lia;
        injection Hsev as <-; simpl String.eqb; cbv iota;
        draw_randint s0 Hr; draw_choice s0 Ha;
        (eexists _, _; split; [reflexivity|]);
        (apply Forall2_app; [done|]); apply Forall2_cons; split; try apply Forall2_nil_2;
        (split; [done|]); (split; [by eexists|]); simpl; intuition lia. }
    destruct Hcases as [->|[->|[->|[->| ->]]]];
      (unfold getitem at 1; simpl; unfold bind at 1, ret at 1;
       match goal with |- context [bind (Random.randint 0 ?b) ?k s] =>
         destruct (randint_returns 0 b s ltac:(lia)) as (kk & s1 & E & Hk);
         rewrite (bind_returns _ k s kk s1 E); clear E
       end;
       assert (kk = 0 \/ kk = 1 \/ kk = 2) as Hkk by lia;
       destruct Hkk as [->|[->| ->]];
       (unfold getitem at 1; simpl; unfold bind at 1, ret at 1;
        match goal with Hk' : 0 <= ?c <= _ |- _ =>
          eapply (Hrest _ c); [reflexivity | simpl in Hk' |- *; lia | reflexivity]
        end)).
  - unfold range. simpl. repeat (apply Forall_cons; split; [lia|]). apply Forall_nil_2.
  - apply Forall2_nil_2.
  - exists fs, g'. done.
Qed.

(** ** data/mock_generator.py: topology changes *)

Lemma redraw_status_sound fuel old_status : forall new_status g v g',
  new_status ∈ MockGenerator.status_names ->
  MockGenerator.redraw_status fuel old_status new_status g = (Returns v, g') ->
  v <> old_status /\ v ∈ MockGenerator.status_names.
Proof.
  induction fuel as [|fuel IH]; intros new_status g v g' Hin; simpl;
    destruct (String.eqb old_status new_status) eqn:Heq.
  - done.
  - intros [= <- <-]. apply String.eqb_neq in Heq. by split; [congruence|].
  - intros Hrun. inv_bind Hrun Hdraw. apply choice_inv in Hdraw. by eapply IH.
  - intros [= <- <-]. apply String.eqb_neq in Heq. by split; [congruence|].
Qed.

(** C10: whenever [generate_topology_changes] returns (for any loop bound,
    number of changes, clock value and state of the random generator), every
    record whose change_type is "Status Change" has the text
    "<device_type> status changed from <old> to <new>" with old and new two
    distinct values among Online, Offline and Degraded. *)
Theorem C10_status_change_is_a_transition fuel num_changes now g changes g' :
  MockGenerator.generate_topology_changes fuel num_changes now g = (Returns changes, g') ->
  Forall (fun c => MockGenerator.change_type c = "Status Change" ->
                   describes_status_change c) changes.
Proof.
  unfold MockGenerator.generate_topology_changes.
  match goal with |- for_each ?l ?b _ _ = _ -> _ =>
    apply (for_each_sound
             (fun _ acc => Forall (fun c => MockGenerator.change_type c = "Status Change" ->
                                            describes_status_change c) acc)
             (fun _ => True) b l)
      with (pre := @nil Z)
  end.
  - intros pre i acc s acc' s' _ Hacc.
    draw_randint s Hd. draw_randint s Hh. draw_randint s Hm.
    draw_choice s Hct. draw_choice s Hdt. draw_randint s Hn.
    intros Hrun. inv_bind Hrun Hdetails.
    inv_bind Hrun Hc. apply ret_inv in Hrun as [<- <-].
    apply Forall_app. split; [done|]. apply Forall_singleton. simpl. intros ->.
    simpl in Hdetails. inv_bind Hdetails Hold. inv_bind Hdetails Hnew.
    inv_bind Hdetails Hredraw. apply ret_inv in Hdetails as [<- _].
    apply choice_inv in Hold, Hnew.
    apply redraw_status_sound in Hredraw as [Hne Hin]; [|done].
    eexists _, _. by repeat split.
  - by apply Forall_forall.
  - apply Forall_nil_2.
Qed.

(** A run of [generate_topology_changes] that re-draws the new status five
    times before it differs from the old one. *)
Lemma C10_status_change_witness :
  exists changes g',
    MockGenerator.generate_topology_changes 5 3 100000 rng_status_change
    = (Returns changes, g')
    /\ MockGenerator.change_type <$> changes
       = ["Status Change"; "Device Removed"; "Device Added"]
    /\ Forall (fun c => MockGenerator.change_type c = "Status Change" ->
                        describes_status_change c) changes.
Proof.
  eexists _, _. split; [vm_compute; reflexivity|]. split; [reflexivity|].
  eapply (C10_status_change_is_a_transition 5 3 100000 rng_status_change).
  vm_compute. reflexivity.
Defined.

(** ** components/device_discovery.py *)

Import DeviceDiscovery.

(** C3 (as stated, refuted): [discover_cisco] gives the same value for a
    session that succeeds with empty output and for a connection that fails;
    [discover_lldp] gives the same value whether two frames or none were
    captured; [discover_mikrotik] gives only the error text when the second
    query fails after the identity was read. *)
Lemma C3_results_untyped_and_observations_dropped :
  discover_cisco net_quiet "10.0.0.1" "admin" "secret" tt
  = discover_cisco net_ssh_down "10.0.0.1" "admin" "secret" tt
  /\ sniff net_busy "eth0" "ether proto 0x88cc" 30
     = Returns ["lldp frame from sw1"; "lldp frame from sw2"]
  /\ discover_lldp net_busy "eth0" tt = (Returns (PyBool true), tt)
  /\ discover_lldp net_quiet "eth0" tt = (Returns (PyBool true), tt)
  /\ routeros_get net_api_timeout "/system/identity" = Returns [[("name", "core-router")]]
  /\ discover_mikrotik net_api_timeout "10.0.0.2" "admin" "secret" tt
     = (Returns (PyStr "timed out"), tt).
Proof. repeat split. Qed.

Lemma listener_result_intro (call : outcome (list frame)) :
  ordinary call ->
  listener_result call
    (try_except (lift call ;;; ret (PyBool true)) (fun e => ret (PyStr (str e))) tt).
Proof.
  intros Hord. unfold listener_result, try_except, bind, lift, ret.
  destruct call as [frames|e|]; simpl in *; [| |done].
  - exists (PyBool true). split; [done|]. split; [|split]; try done.
    split; [done|]. by intros [? ?].
  - rewrite Hord. exists (PyStr (str e)). split; [done|]. split; [|split]; try done.
    + split; [by eexists|done].
    + by intros ? [= ->].
Qed.

(** C3 (amended): on a network whose library calls return or raise an
    [Exception], every discovery method returns a value and never raises. The
    three passive listeners return [True] when the capture returned (the
    frames captured are not part of the value) and the text of the exception
    when it failed, so success and failure differ by type; [discover_mikrotik]
    returns the dictionary of the three resources read exactly when all four
    calls returned and an exception text otherwise; [discover_cisco] returns a
    string in every case: the decoded command output when the three calls
    returned, an exception text otherwise. In both, the exception text is
    that of the first call that raised. *)
Theorem C3_probes_return_value_or_text net (Hnet : ordinary_network net) :
  (forall interface,
     listener_result (sniff net interface "ether proto 0x88cc" 30)
       (discover_lldp net interface tt))
  /\ (forall interface,
        listener_result (sniff net interface "ether host 01:00:0c:cc:cc:cc" 30)
          (discover_cdp net interface tt))
  /\ (forall interface,
        listener_result (sniff net interface "ether proto 0x00CC" 30)
          (discover_mdp net interface tt))
  /\ (forall host username password,
        exists v, discover_mikrotik net host username password tt = (Returns v, tt)
          /\ (is_text v = false <->
              exists identity mdp interfaces,
                routeros_get_api net host username password 8728 = Returns tt
                /\ routeros_get net "/system/identity" = Returns identity
                /\ routeros_get net "/ip/neighbor" = Returns mdp
                /\ routeros_get net "/interface" = Returns interfaces
                /\ v = PyDict [("identity", identity); ("mdp_neighbors", mdp);
                               ("interfaces", interfaces)])
          /\ (forall e, mikrotik_failure net host username password = Some e ->
                v = PyStr (str e)))
  /\ (forall host username password,
        exists text, discover_cisco net host username password tt
                     = (Returns (PyStr text), tt)
          /\ (forall raw output,
                ssh_connect net host username password = Returns tt ->
                ssh_exec_command net "show cdp neighbors detail" = Returns raw ->
                decode net raw = Returns output ->
                text = output)
          /\ (forall e, cisco_failure net host username password = Some e ->
                text = str e)).
Proof.
  destruct Hnet as [Hsniff Hapi Hget Hconn Hexec Hdec].
  split; [|split; [|split; [|split]]].
  - intros i. by apply listener_result_intro.
  - intros i. by apply listener_result_intro.
  - intros i. by apply listener_result_intro.
  - intros h u p. unfold discover_mikrotik, mikrotik_failure, try_except, bind, lift, ret.
    pose proof (Hapi h u p 8728) as H1.
    pose proof (Hget "/system/identity") as H2.
    pose proof (Hget "/ip/neighbor") as H3.
    pose proof (Hget "/interface") as H4.
    destruct (routeros_get_api net h u p 8728) as [[]|e1|]; simpl in *; [| |done].
    2:{ rewrite H1. eexists. split; [done|]. split; [|by intros ? [= ->]].
        split; [done|]. by intros (?&?&?&?&_). }
    destruct (routeros_get net "/system/identity") as [identity|e2|]; simpl in *; [| |done].
    2:{ rewrite H2. eexists. split; [done|]. split; [|by intros ? [= ->]].
        split; [done|]. by intros (?&?&?&_&?&_). }
    destruct (routeros_get net "/ip/neighbor") as [mdp|e3|]; simpl in *; [| |done].
    2:{ rewrite H3. eexists. split; [done|]. split; [|by intros ? [= ->]].
        split; [done|]. by intros (?&?&?&_&_&?&_). }
    destruct (routeros_get net "/interface") as [interfaces|e4|]; simpl in *; [| |done].
    2:{ rewrite H4. eexists. split; [done|]. split; [|by intros ? [= ->]].
        split; [done|]. by intros (?&?&?&_&_&_&?&_). }
    eexists. split; [done|]. split; [|done].
    split; [|done]. intros _. by exists identity, mdp, interfaces.
  - intros h u p. unfold discover_cisco, cisco_failure, try_except, bind, lift, ret.
    pose proof (Hconn h u p) as H1.
    pose proof (Hexec "show cdp neighbors detail") as H2.
    destruct (ssh_connect net h u p) as [[]|e1|]; simpl in *; [| |done].
    2:{ rewrite H1. eexists. split; [done|]. split; [by intros|by intros ? [= ->]]. }
    destruct (ssh_exec_command net "show cdp neighbors detail") as [raw|e2|];
      simpl in *; [| |done].
    2:{ rewrite H2. eexists. split; [done|]. split; [by intros|by intros ? [= ->]]. }
    pose proof (Hdec raw) as H3.
    destruct (decode net raw) as [output|e3|] eqn:Hd; simpl in *; [| |done].
    2:{ rewrite H3. eexists. split; [done|]. split; [|by intros ? [= ->]].
        intros ? ? _ [= <-]. congruence. }
    eexists. split; [done|]. split; [|done]. intros ? ? _ [= <-]. congruence.
Qed.

Lemma net_busy_ordinary : ordinary_network net_busy.
Proof. by split. Qed.

(** The amended C3 at the network on which two frames are captured. *)
Lemma C3_probes_witness :
  ordinary_network net_busy
  /\ listener_result (sniff net_busy "eth0" "ether proto 0x88cc" 30)
       (discover_lldp net_busy "eth0" tt).
Proof.
  split; [apply net_busy_ordinary|].
  apply (C3_probes_return_value_or_text net_busy net_busy_ordinary).
Defined.

(** ** database/db_utils.py: insertions *)

Section Insertions.
Import DbUtils.
Variable eng : engine.

Ltac list_eq := cbn; rewrite ?app_nil_r, <- ?app_assoc; reflexivity.

(** The frame every insertion shares: [get_session], the conversion, the
    shared steps, the handler that rolls back, prints and re-raises, and the
    closing [finally]. *)
Lemma framed_insert_spec (prepare : dict -> outcome dict) t msg :
  (forall data, prepare data <> Exhausted) ->
  insertion_spec eng prepare t msg
    (fun data =>
       get_session ;;;
       try_finally
         (try_except
            (data' <- lift (prepare data) ;; insert_steps eng t data')
            (fun e => session_rollback ;;; print (msg +:+ str e) ;;; raise e))
         session_close).
Proof.
  intros Hprep data [tabs wk hp sn out jr]. specialize (Hprep data).
  unfold get_session, session_close, session_rollback, print, called, insert_steps,
    construct, session_add, session_commit, read_id.
  cbv [try_finally try_except bind get put ret modify raise lift]. cbn.
  destruct (prepare data) as [cols|e|] eqn:Hp; [| |done].
  - destruct (construct_error eng t cols) as [e|] eqn:Hc.
    + destruct (is_Exception e) eqn:He; cbn; rewrite ?He;
        (split; [done|]; split; [done|]; exists [];
         split; [by eapply at_constructor|]; split; list_eq).
    + cbn. unfold flush_one. cbv [bind get put ret raise]. cbn.
      rewrite list_lookup_middle by done. cbn.
      destruct (flush_error eng tabs t cols) as [e|] eqn:Hf; cbn.
      * destruct (is_Exception e) eqn:He; cbn; rewrite ?He;
          (split; [done|]; split; [done|]; exists [call_add; call_commit];
           split; [by eapply at_insert|]; split; list_eq).
      * rewrite list_lookup_alter, list_lookup_insert_eq
          by (rewrite length_app; simpl; lia).
        cbn. rewrite decide_True by done. cbn. fold (stored eng t cols tabs).
        destruct (refresh_error eng (stored eng t cols tabs) t (allocate_id eng tabs t))
          as [e|] eqn:Hr; cbn.
        -- destruct (is_Exception e) eqn:He; cbn; rewrite ?He;
             (split; [done|]; split; [done|]; exists [call_add; call_commit];
              split; [by eapply at_id_reload|]; split; list_eq).
        -- split; [done|]. split; [done|]. exists cols.
           do 7 (split; [done|]). list_eq.
  - destruct (is_Exception e) eqn:He; cbn; rewrite ?He;
      (split; [done|]; split; [done|]; exists [];
       split; [by eapply at_conversion|]; split; list_eq).
Qed.

Lemma convert_status_not_exhausted data : convert_status data <> Exhausted.
Proof.
  unfold convert_status. destruct (dict_get "status" data) as [[| s | | | | |]|]; try done.
  pose proof (DeviceStatus_call_not_exhausted s).
  by destruct (Models.DeviceStatus_call s).
Qed.

Lemma convert_severity_not_exhausted data : convert_severity data <> Exhausted.
Proof.
  unfold convert_severity. destruct (dict_get "severity" data) as [[| s | | | | |]|]; try done.
  pose proof (AlertSeverity_call_not_exhausted s).
  by destruct (Models.AlertSeverity_call s).
Qed.

Lemma add_network_device_frame data w :
  add_network_device eng data w
  = (get_session ;;;
     try_finally
       (try_except
          (data' <- lift (convert_status data) ;; insert_steps eng NetworkDevice data')
          (fun e => session_rollback ;;;
                    print ("Error adding network device: " +:+ str e) ;;; raise e))
       session_close) w.
Proof.
  unfold add_network_device, convert_status, insert_steps.
  destruct (dict_get "status" data) as [[| s | | | | |]|]; try reflexivity.
  unfold try_finally, try_except, bind, lift, ret.
  destruct (get_session w) as [[[]| |] w0]; try reflexivity.
  by destruct (Models.DeviceStatus_call s).
Qed.

Lemma add_security_event_frame data w :
  add_security_event eng data w
  = (get_session ;;;
     try_finally
       (try_except
          (data' <- lift (convert_severity data) ;; insert_steps eng SecurityEvent data')
          (fun e => session_rollback ;;;
                    print ("Error adding security event: " +:+ str e) ;;; raise e))
       session_close) w.
Proof.
  unfold add_security_event, convert_severity, insert_steps.
  destruct (dict_get "severity" data) as [[| s | | | | |]|]; try reflexivity.
  unfold try_finally, try_except, bind, lift, ret.
  destruct (get_session w) as [[[]| |] w0]; try reflexivity.
  by destruct (Models.AlertSeverity_call s).
Qed.

(** C8: each of the five insertions returns or raises and leaves the
    session closed. When the enum conversion, the constructor or the INSERT
    raises, the committed tables are unchanged and that exception reaches
    the caller, after the handler has rolled the session back and printed
    its message when the exception is an [Exception]. When the commit goes
    through, the row is stored under the key the engine assigned; the
    insertion returns that key unless loading it again after the commit
    raises, in which case that exception reaches the caller with the row
    stored. *)
Theorem C8_insertions_atomic_up_to_commit :
  insertion_spec eng convert_status NetworkDevice
    "Error adding network device: " (add_network_device eng)
  /\ insertion_spec eng convert_severity SecurityEvent
       "Error adding security event: " (add_security_event eng)
  /\ insertion_spec eng Returns DevicePerformanceMetric
       "Error adding device performance metric: " (add_device_performance_metric eng)
  /\ insertion_spec eng Returns NetworkTraffic
       "Error adding network traffic record: " (add_network_traffic eng)
  /\ insertion_spec eng Returns TopologyChange
       "Error adding topology change record: " (add_topology_change eng).
Proof.
  split; [|split; [|split; [|split]]]; intros data w.
  - rewrite add_network_device_frame.
    apply (framed_insert_spec convert_status NetworkDevice
             "Error adding network device: " convert_status_not_exhausted data w).
  - rewrite add_security_event_frame.
    apply (framed_insert_spec convert_severity SecurityEvent
             "Error adding security event: " convert_severity_not_exhausted data w).
  - by apply (framed_insert_spec Returns DevicePerformanceMetric
                "Error adding device performance metric: ").
  - by apply (framed_insert_spec Returns NetworkTraffic
                "Error adding network traffic record: ").
  - by apply (framed_insert_spec Returns TopologyChange
                "Error adding topology change record: ").
Qed.

End Insertions.

(** The claim as first stated fails where the key is loaded again: on an
    engine that stores the row and then loses its connection,
    [add_network_device] raises with the row in the table, so the insertion
    is not atomic with respect to every error. *)
Lemma C8_row_stored_when_id_reload_fails :
  let run := DbUtils.add_network_device eng_reload_fails (device_sw1 "online") empty_world in
  fst run = Raises (mk_exn OperationalError "server closed the connection unexpectedly")
  /\ DbUtils.tables empty_world DbUtils.NetworkDevice = []
  /\ DbUtils.row_id <$> DbUtils.tables (snd run) DbUtils.NetworkDevice = [1]
  /\ DbUtils.journal (snd run)
     = [DbUtils.call_close; DbUtils.call_add; DbUtils.call_commit;
        DbUtils.call_rollback; DbUtils.call_close]
  /\ ~ atomic_insert (DbUtils.add_network_device eng_reload_fails) DbUtils.NetworkDevice.
Proof.
  split; [by vm_compute|]. split; [by vm_compute|]. split; [by vm_compute|].
  split; [by vm_compute|].
  intros Hatomic. specialize (Hatomic (device_sw1 "online") empty_world).
  vm_compute in Hatomic. destruct Hatomic as [Htabs _].
  apply (f_equal (fun ts => length (ts DbUtils.NetworkDevice))) in Htabs.
  vm_compute in Htabs. discriminate.
Qed.

(** Four runs on an engine that keeps device_id unique: the first insertion
    returns the key 1; a second insertion of the same device_id raises the
    engine's IntegrityError inside [commit], is rolled back and leaves the
    table as it was; a status that is not a member of [DeviceStatus] raises
    ValueError before anything is added to the session. *)
Example add_network_device_runs :
  let run1 := DbUtils.add_network_device eng_unique_device_id (device_sw1 "online") empty_world in
  let run2 := DbUtils.add_network_device eng_unique_device_id (device_sw1 "warning") (snd run1) in
  let run3 := DbUtils.add_network_device eng_unique_device_id (device_sw1 "unknown") empty_world in
  fst run1 = Returns (Some 1)
  /\ length (DbUtils.tables (snd run1) DbUtils.NetworkDevice) = 1%nat
  /\ fst run2 = Raises (mk_exn IntegrityError "duplicate key value violates unique constraint")
  /\ DbUtils.tables (snd run2) DbUtils.NetworkDevice
     = DbUtils.tables (snd run1) DbUtils.NetworkDevice
  /\ DbUtils.stdout (snd run2)
     = ["Error adding network device: duplicate key value violates unique constraint"]
  /\ DbUtils.journal (snd run2)
     = DbUtils.journal (snd run1)
       ++ [DbUtils.call_close; DbUtils.call_add; DbUtils.call_commit;
           DbUtils.call_rollback; DbUtils.call_close]
  /\ fst run3 = Raises (mk_exn ValueError "unknown is not a valid DeviceStatus")
  /\ DbUtils.tables (snd run3) DbUtils.NetworkDevice = []
  /\ DbUtils.journal (snd run3)
     = [DbUtils.call_close; DbUtils.call_rollback; DbUtils.call_close].
Proof. vm_compute. repeat split. Qed.

(** ** utils.py: the random network *)

Lemma wf_empty_graph : wf_graph Nx.empty_graph.
Proof. split; simpl; [by rewrite !dom_empty_L|]. intros u nbrs. by rewrite lookup_empty. Qed.

Lemma wf_add_node n attr G : wf_graph G -> wf_graph (Nx.add_node n attr G).
Proof.
  intros [Hdom Hnb]. unfold Nx.add_node.
  destruct (Nx._node G !! n) as [old|] eqn:Hn; split; simpl.
  - rewrite dom_insert_L, Hdom. apply elem_of_dom_2 in Hn. set_solver.
  - intros u nbrs Hu. rewrite dom_insert_L. specialize (Hnb u nbrs Hu). set_solver.
  - by rewrite !dom_insert_L, Hdom.
  - intros u nbrs. rewrite dom_insert_L, lookup_insert. case_decide.
    + intros [= <-]. set_solver.
    + intros Hu. specialize (Hnb u nbrs Hu). set_solver.
Qed.

Lemma wf_ensure_node u G : wf_graph G -> wf_graph (Nx.ensure_node u G).
Proof.
  intros [Hdom Hnb]. unfold Nx.ensure_node.
  destruct (Nx._node G !! u) as [old|] eqn:Hn; [done|]. split; simpl.
  - by rewrite !dom_insert_L, Hdom.
  - intros w nbrs. rewrite dom_insert_L, lookup_insert. case_decide.
    + intros [= <-]. set_solver.
    + intros Hw. specialize (Hnb w nbrs Hw). set_solver.
Qed.

Lemma ensure_node_elem u G : u ∈ dom (Nx._node (Nx.ensure_node u G)).
Proof.
  unfold Nx.ensure_node. destruct (Nx._node G !! u) as [old|] eqn:Hn; simpl.
  - by apply elem_of_dom_2 in Hn.
  - rewrite dom_insert_L. set_solver.
Qed.

Lemma ensure_node_mono u G : dom (Nx._node G) ⊆ dom (Nx._node (Nx.ensure_node u G)).
Proof.
  unfold Nx.ensure_node. destruct (Nx._node G !! u); simpl; [done|].
  rewrite dom_insert_L. set_solver.
Qed.

Lemma wf_add_edge u v G : wf_graph G -> wf_graph (Nx.add_edge u v G).
Proof.
  intros Hwf. unfold Nx.add_edge.
  pose proof (wf_ensure_node v _ (wf_ensure_node u G Hwf)) as [Hdom Hnb].
  pose proof (ensure_node_elem v (Nx.ensure_node u G)) as Hv.
  pose proof (ensure_node_mono v (Nx.ensure_node u G) u (ensure_node_elem u G)) as Hu.
  set (G2 := Nx.ensure_node v (Nx.ensure_node u G)) in *.
  assert (forall w, Nx._adj G2 !!! w ⊆ dom (Nx._node G2)) as Htot.
  { intros w. rewrite lookup_total_alt.
    destruct (Nx._adj G2 !! w) as [nbrs|] eqn:Hw; simpl; [by eapply Hnb|set_solver]. }
  split; simpl.
  - rewrite !dom_insert_L, Hdom. set_solver.
  - intros w nbrs. rewrite lookup_insert. case_decide.
    + intros [= <-]. rewrite lookup_total_insert. case_decide.
      * specialize (Htot u). set_solver.
      * specialize (Htot v). set_solver.
    + rewrite lookup_insert. case_decide.
      * intros [= <-]. specialize (Htot u). set_solver.
      * apply Hnb.
Qed.

Lemma edges_in_adj G u v :
  (u, v) ∈ Nx.edges G -> exists nbrs, Nx._adj G !! u = Some nbrs /\ v ∈ nbrs.
Proof.
  unfold Nx.edges.
  assert (forall l (acc : gset Z * list (Z * Z)),
    (forall n nbrs, (n, nbrs) ∈ l -> Nx._adj G !! n = Some nbrs) ->
    (forall a b, (a, b) ∈ acc.2 ->
       exists nbrs, Nx._adj G !! a = Some nbrs /\ b ∈ nbrs) ->
    forall a b,
      (a, b) ∈ (foldl (fun '(seen, out) '(n, nbrs) =>
                  (({[n]} : gset Z) ∪ seen,
                   out ++ ((fun nbr => (n, nbr)) <$>
                             filter (fun nbr => nbr ∉ seen) (elements nbrs))))
                 acc l).2 ->
      exists nbrs, Nx._adj G !! a = Some nbrs /\ b ∈ nbrs) as Hfold.
  { induction l as [|[n nbrs] l IH]; intros [seen out] Hl Hacc a b; simpl; [by apply Hacc|].
    apply IH.
    - intros n' nbrs' Hin. apply Hl. by right.
    - intros a' b'. simpl. rewrite elem_of_app, list_elem_of_fmap.
      intros [Hin|(nbr & [= -> ->] & Hin)]; [by apply Hacc|].
      exists nbrs. split; [apply Hl; by left|].
      apply list_elem_of_filter in Hin as [_ Hin]. by apply elem_of_elements in Hin. }
  apply Hfold.
  - intros n nbrs Hin. by apply elem_of_map_to_list in Hin.
  - simpl. intros a b Hin. by apply elem_of_nil in Hin.
Qed.

Lemma elem_of_nodes G u : u ∈ Nx.nodes G <-> u ∈ dom (Nx._node G).
Proof.
  unfold Nx.nodes. rewrite list_elem_of_fmap. split.
  - intros [[k a] [-> Hin]]. apply elem_of_map_to_list in Hin.
    by apply elem_of_dom_2 in Hin.
  - intros [a Ha]%elem_of_dom. exists (u, a). split; [done|].
    by apply elem_of_map_to_list.
Qed.

Lemma wf_edges_closed G : wf_graph G -> edges_closed G.
Proof.
  intros [Hdom Hnb] u v Huv. apply edges_in_adj in Huv as (nbrs & Hu & Hv).
  rewrite !elem_of_nodes. split.
  - rewrite <- Hdom. by apply elem_of_dom_2 in Hu.
  - by eapply Hnb.
Qed.

Lemma add_random_edges_wf fuel num_nodes num_edges : forall G g G' g',
  wf_graph G ->
  Utils.add_random_edges fuel num_nodes num_edges G g = (Returns G', g') ->
  wf_graph G'.
Proof.
  induction fuel as [|fuel IH]; intros G g G' g' Hwf; simpl;
    destruct (decide (Nx.number_of_edges G < num_edges)).
  - done.
  - by intros [= <- _].
  - intros Hrun. inv_bind Hrun Hu. inv_bind Hrun Hv.
    eapply IH; [|done]. case_decide; [by apply wf_add_edge|done].
  - by intros [= <- _].
Qed.

Lemma create_network_graph_wf fuel num_nodes num_edges g G g' :
  Utils.create_network_graph fuel num_nodes num_edges g = (Returns G, g') ->
  wf_graph G.
Proof.
  unfold Utils.create_network_graph. intros Hrun. inv_bind Hrun Hnodes.
  eapply add_random_edges_wf; [|done].
  revert Hnodes.
  match goal with |- for_each ?l ?b _ _ = _ -> _ =>
    apply (for_each_sound (fun _ G => wf_graph G) (fun _ => True) b l) with (pre := @nil Z)
  end.
  - intros pre i acc r acc' r' _ Hacc Hbody.
    inv_bind Hbody Ht. inv_bind Hbody Hs. apply ret_inv in Hbody as [<- _].
    by apply wf_add_node.
  - by apply Forall_forall.
  - apply wf_empty_graph.
Qed.

(** C5: for every loop bound, [num_nodes], [num_edges] and state of the
    random generator on which [create_network_graph] returns, both endpoints
    of every edge of the returned graph are nodes of that graph. *)
Theorem C5_create_network_graph_edges_closed fuel num_nodes num_edges g G g' :
  Utils.create_network_graph fuel num_nodes num_edges g = (Returns G, g') ->
  edges_closed G.
Proof. intros Hrun. eapply wf_edges_closed, create_network_graph_wf, Hrun. Qed.

(** A run with four nodes and three edges: the loop discards the pair (2, 2)
    and draws the edge between 0 and 1 twice before the third edge. *)
Lemma C5_create_network_graph_witness :
  exists G g',
    Utils.create_network_graph 6 4 3 rng_small_graph = (Returns G, g')
    /\ Nx.nodes G ≡ₚ [0; 1; 2; 3]
    /\ Nx.number_of_edges G = 3
    /\ Nx.neighbors G 1 ≡ₚ [0; 3]
    /\ edges_closed G.
Proof.
  eexists _, _. split; [vm_compute; reflexivity|].
  split; [by vm_compute; apply (bool_decide_unpack _)|].
  split; [vm_compute; reflexivity|].
  split; [by vm_compute; apply (bool_decide_unpack _)|].
  eapply (C5_create_network_graph_edges_closed 6 4 3 rng_small_graph).
  vm_compute. reflexivity.
Defined.

(** ** networkx: betweenness centrality of a star *)

(** C6: on the star with five nodes 0..4, whichever of them is the hub, the
    betweenness centrality returns 1 for the hub and 0 for each of the four
    leaves, so the hub has the strictly largest value. *)
Theorem C6_star_betweenness {S} (s : S) (hub : Z) :
  0 <= hub <= 4 ->
  exists b,
    Nx.betweenness_centrality (star5 hub) s = (Returns b, s)
    /\ dom b = list_to_set [0; 1; 2; 3; 4]
    /\ centrality_is b hub 1
    /\ forall leaf, 0 <= leaf <= 4 -> leaf <> hub ->
         centrality_is b leaf 0
         /\ exists x y, b !! leaf = Some x /\ b !! hub = Some y /\ (x < y)%Q.
Proof.
  intros Hhub.
  assert (hub = 0 \/ hub = 1 \/ hub = 2 \/ hub = 3 \/ hub = 4) as Hcases by lia.
  destruct Hcases as [->|[->|[->|[->| ->]]]];
    (eexists; split; [vm_compute; reflexivity|];
     split; [by vm_compute|]; split; [by vm_compute|];
     intros leaf Hleaf Hne;
     assert (leaf = 0 \/ leaf = 1 \/ leaf = 2 \/ leaf = 3 \/ leaf = 4) as Hl by lia;
     destruct Hl as [->|[->|[->|[->| ->]]]]; try (exfalso; lia);
     (split; [by vm_compute | eexists _, _; by vm_compute])).
Qed.

(** The star whose hub is node 0, as [nx.star_graph(4)] numbers it. *)
Lemma C6_star_betweenness_witness :
  0 <= 0 <= 4
  /\ exists b,
       Nx.betweenness_centrality (star5 0) tt = (Returns b, tt)
       /\ dom b = list_to_set [0; 1; 2; 3; 4]
       /\ centrality_is b 0 1
       /\ forall leaf, 0 <= leaf <= 4 -> leaf <> 0 ->
            centrality_is b leaf 0
            /\ exists x y, b !! leaf = Some x /\ b !! 0 = Some y /\ (x < y)%Q.
Proof. split; [lia|]. apply (C6_star_betweenness tt 0). lia. Defined.

(** ** networkx: breadth-first distances and the diameter *)

Section Bfs.
Variable G : Nx.Graph.
Hypothesis G_wf : wf_graph G.
Variable source : Z.

Lemma neighbors_in_graph v w : w ∈ Nx._adj G !!! v -> w ∈ dom (Nx._adj G).
Proof.
  destruct G_wf as [Hdom Hnb]. rewrite lookup_total_alt.
  destruct (Nx._adj G !! v) as [nbrs|] eqn:Hv; simpl; [|set_solver].
  intros Hw. rewrite Hdom. by eapply Hnb.
Qed.

Lemma visit_inv level st v w :
  reachable G source v -> w ∈ Nx._adj G !!! v ->
  bfs_inv G source st ->
  bfs_inv G source (Nx.visit level st w) /\ grows st (Nx.visit level st w).
Proof.
  intros Hv Hw [Hs Hd Hr Hn Hk]. unfold Nx.visit, grows.
  destruct (decide (w ∈ Nx.seen st)) as [Hin|Hnin]; [by split|].
  split; [split|]; simpl.
  - set_solver.
  - apply neighbors_in_graph in Hw. set_solver.
  - intros x [->%elem_of_singleton|Hx]%elem_of_union; [|by apply Hr].
    eapply rtc_r; [exact Hv|exact Hw].
  - intros x [Hx| ->%list_elem_of_singleton]%elem_of_app; set_solver.
  - rewrite fmap_app, list_to_set_app_L, Hk. simpl. set_solver.
  - rewrite size_union by set_solver. rewrite size_singleton, length_app. simpl. lia.
Qed.

Lemma visit_all_inv level v : forall ws st,
  reachable G source v -> (forall w, w ∈ ws -> w ∈ Nx._adj G !!! v) ->
  bfs_inv G source st ->
  bfs_inv G source (foldl (Nx.visit level) st ws)
  /\ grows st (foldl (Nx.visit level) st ws).
Proof.
  induction ws as [|w ws IH]; intros st Hv Hws Hinv; simpl.
  - split; [done|]. unfold grows. lia.
  - destruct (visit_inv level st v w Hv) as [Hinv1 Hg1]; [apply Hws; by left|done|].
    destruct (IH (Nx.visit level st w) Hv) as [Hinv2 Hg2];
      [intros; apply Hws; by right|done|].
    split; [done|]. unfold grows in *. lia.
Qed.

Lemma scan_level_inv n level : forall thislevel st,
  (forall v, v ∈ thislevel -> reachable G source v) ->
  bfs_inv G source st ->
  bfs_inv G source (Nx.scan_level G n level thislevel st).2
  /\ grows st (Nx.scan_level G n level thislevel st).2.
Proof.
  induction thislevel as [|v rest IH]; intros st Hlevel Hinv; simpl.
  - split; [done|]. unfold grows. lia.
  - destruct (visit_all_inv level v (Nx.neighbors G v) st) as [Hinv1 Hg1];
      [apply Hlevel; by left| |done|].
    { intros w Hw. unfold Nx.neighbors in Hw. by apply elem_of_elements in Hw. }
    case_decide; simpl; [done|].
    destruct (IH (foldl (Nx.visit level) st (Nx.neighbors G v))) as [Hinv2 Hg2];
      [intros; apply Hlevel; by right|done|].
    split; [done|]. unfold grows in *. lia.
Qed.

Lemma bfs_inv_size st : bfs_inv G source st -> (size (Nx.seen st) <= size (Nx._adj G))%nat.
Proof.
  intros [_ Hd _ _ _]. rewrite <- size_dom. by apply subseteq_size.
Qed.

(** The loop ends within its bound, and what it yields is keyed by nodes
    reachable from the source. *)
Lemma bfs_levels_terminates fuel : forall level st,
  bfs_inv G source st ->
  (Nx.nextlevel st = [] \/ size (Nx.seen st) + fuel > size (Nx._adj G))%nat ->
  exists pairs,
    Nx.bfs_levels fuel G (size (Nx._adj G)) level st = Some pairs
    /\ source ∈ (list_to_set pairs.*1 : gset Z)
    /\ (list_to_set pairs.*1 : gset Z) ⊆ dom (Nx._adj G)
    /\ forall x, x ∈ (list_to_set pairs.*1 : gset Z) -> reachable G source x.
Proof.
  assert (forall st, bfs_inv G source st ->
    source ∈ (list_to_set (Nx.found st).*1 : gset Z)
    /\ (list_to_set (Nx.found st).*1 : gset Z) ⊆ dom (Nx._adj G)
    /\ forall x, x ∈ (list_to_set (Nx.found st).*1 : gset Z) -> reachable G source x)
    as Hdone.
  { intros st [Hs Hd Hr Hn Hk]. rewrite Hk. by repeat split. }
  induction fuel as [|fuel IH]; intros level st Hinv Hfuel.
  - pose proof (bfs_inv_size st Hinv) as Hsize.
    destruct Hfuel as [Hnil|Hgt]; [|lia].
    exists (Nx.found st). simpl. rewrite Hnil. split; [done|]. by apply Hdone.
  - simpl. destruct (Nx.nextlevel st) as [|v0 rest] eqn:Hnext.
    { exists (Nx.found st). split; [done|]. by apply Hdone. }
    set (st0 := {| Nx.seen := Nx.seen st; Nx.nextlevel := []; Nx.found := Nx.found st |}).
    assert (bfs_inv G source st0) as Hinv0.
    { destruct Hinv as [Hs Hd Hr Hn Hk]. split; simpl; try done.
      intros x Hx. by apply elem_of_nil in Hx. }
    destruct (scan_level_inv (size (Nx._adj G)) (S level) (v0 :: rest) st0)
      as [Hinv1 Hg1]; [|done|].
    { intros v Hv. destruct Hinv as [Hs Hd Hr Hn Hk]. apply Hr, Hn. by rewrite Hnext. }
    destruct (Nx.scan_level G (size (Nx._adj G)) (S level) (v0 :: rest) st0)
      as [returned st1] eqn:Hscan. simpl in Hinv1, Hg1.
    destruct returned.
    { exists (Nx.found st1). split; [done|]. by apply Hdone. }
    apply IH; [done|].
    destruct (Nx.nextlevel st1) as [|w1 rest1] eqn:Hnext1; [by left|right].
    destruct Hfuel as [Hnil|Hgt]; [done|].
    unfold grows in Hg1. rewrite Hnext1 in Hg1. simpl in Hg1. lia.
Qed.

Lemma single_source_shortest_path_length_spec {S} (s : S) :
  source ∈ dom (Nx._node G) ->
  exists length,
    Nx.single_source_shortest_path_length G source s = (Returns length, s)
    /\ source ∈ dom length
    /\ dom length ⊆ dom (Nx._node G)
    /\ forall x, x ∈ dom length -> reachable G source x.
Proof.
  intros Hsrc. unfold Nx.single_source_shortest_path_length.
  destruct (decide (source ∈ dom (Nx._node G))); [|done].
  set (st := {| Nx.seen := {[source]}; Nx.nextlevel := [source];
                Nx.found := [(source, O)] |}).
  destruct (bfs_levels_terminates (Datatypes.S (size (Nx._adj G))) O st) as (pairs & -> & H1 & H2 & H3).
  - split; simpl.
    + set_solver.
    + destruct G_wf as [Hdom _]. rewrite Hdom. set_solver.
    + intros x ->%elem_of_singleton. apply rtc_refl.
    + intros x ->%list_elem_of_singleton. set_solver.
    + set_solver.
  - right. unfold st. cbn [Nx.seen]. rewrite size_singleton. lia.
  - exists (list_to_map pairs). rewrite dom_list_to_map_L.
    destruct G_wf as [Hdom _]. rewrite <- Hdom. by repeat split.
Qed.

End Bfs.

Section PureLoops.
Context {S A B : Type}.
Variable body : A -> B -> M S B.
Variable s : S.

(** A loop whose rounds leave the state alone and return. *)
Lemma for_each_pure (I : B -> Prop) xs :
  (forall x acc, x ∈ xs -> I acc ->
     exists acc', body x acc s = (Returns acc', s) /\ I acc') ->
  forall acc, I acc ->
  exists acc', for_each xs body acc s = (Returns acc', s) /\ I acc'.
Proof.
  induction xs as [|x xs IH]; intros Hbody acc Hacc; simpl.
  - by exists acc.
  - destruct (Hbody x acc) as (acc1 & Hrun & Hacc1); [by left|done|].
    rewrite (bind_returns _ _ _ _ _ Hrun).
    apply IH; [|done]. intros y acc2 Hy. apply Hbody. by right.
Qed.

(** A loop in which some round raises [e] and every round either returns or
    raises [e] raises [e]. *)
Lemma for_each_raises (e : exn) xs :
  (forall x acc, x ∈ xs ->
     (exists acc', body x acc s = (Returns acc', s)) \/ body x acc s = (Raises e, s)) ->
  (exists x, x ∈ xs /\ forall acc, body x acc s = (Raises e, s)) ->
  forall acc, for_each xs body acc s = (Raises e, s).
Proof.
  induction xs as [|x xs IH]; intros Hbody (x0 & Hx0 & Hraise) acc; simpl.
  - by apply elem_of_nil in Hx0.
  - destruct (Hbody x acc) as [(acc1 & Hrun)|Hrun]; [by left| |].
    + rewrite (bind_returns _ _ _ _ _ Hrun).
      apply elem_of_cons in Hx0 as [->|Hx0].
      * by rewrite Hraise in Hrun.
      * apply IH; [|by exists x0]. intros y acc2 Hy. apply Hbody. by right.
    + by rewrite (bind_raises _ _ _ _ _ Hrun).
Qed.
End PureLoops.

Lemma max_of_returns {S} (xs : list nat) (s : S) :
  xs <> [] -> exists m, max_of xs s = (Returns m, s).
Proof. destruct xs as [|x xs]; [done|]. intros _. by eexists. Qed.

Section Diameter.
Context {S : Type}.
Variable s : S.
Variable G : Nx.Graph.
Hypothesis G_wf : wf_graph G.

(** One round of the loop of [eccentricity] returns or raises the
    not-connected error. *)
Lemma eccentricity_round n (e : gmap Z nat) :
  n ∈ Nx.nodes G ->
  let round :=
    (length <- Nx.single_source_shortest_path_length G n ;;
     if decide (size length <> Nx.order G) then raise not_connected_error
     else (m <- max_of (map_to_list length).*2 ;; ret (<[n := m]> e))) in
  (exists e', round s = (Returns e', s)) \/ round s = (Raises not_connected_error, s).
Proof.
  intros Hn%elem_of_nodes. simpl.
  destruct (single_source_shortest_path_length_spec G G_wf n s Hn)
    as (length & Hrun & Hsrc & _).
  rewrite (bind_returns _ _ _ _ _ Hrun).
  case_decide; [by right|left].
  destruct (max_of_returns (map_to_list length).*2 s) as [m Hm].
  - apply elem_of_dom in Hsrc as [d Hd]. apply elem_of_map_to_list in Hd.
    intros Hnil. apply (f_equal (fun l => d ∈ l)) in Hnil.
    assert (d ∈ (map_to_list length).*2) as Hin.
    { apply list_elem_of_fmap. by exists (n, d). }
    rewrite Hnil in Hin. by apply elem_of_nil in Hin.
  - rewrite (bind_returns _ _ _ _ _ Hm). by eexists.
Qed.

(** From a node that does not reach some other node, the distances found are
    fewer than the nodes. *)
Lemma eccentricity_round_raises u v (e : gmap Z nat) :
  u ∈ dom (Nx._node G) -> v ∈ dom (Nx._node G) -> ~ reachable G u v ->
  (length <- Nx.single_source_shortest_path_length G u ;;
   if decide (size length <> Nx.order G) then raise not_connected_error
   else (m <- max_of (map_to_list length).*2 ;; ret (<[u := m]> e))) s
  = (Raises not_connected_error, s).
Proof.
  intros Hu Hv Hnot.
  destruct (single_source_shortest_path_length_spec G G_wf u s Hu)
    as (length & Hrun & _ & Hsub & Hreach).
  rewrite (bind_returns _ _ _ _ _ Hrun).
  case_decide as Hsize; [done|]. exfalso.
  assert (dom length ⊂ dom (Nx._node G)) as Hstrict.
  { split; [done|]. intros Hall. apply Hnot, Hreach, Hall, Hv. }
  apply subset_size in Hstrict. rewrite !size_dom in Hstrict.
  unfold Nx.order in *. lia.
Qed.

Lemma diameter_disconnected :
  disconnected G -> Nx.diameter G s = (Raises not_connected_error, s).
Proof.
  intros (u & v & Hu & Hv & Hnot). unfold Nx.diameter, Nx.eccentricity.
  apply bind_raises. apply for_each_raises.
  - intros n e Hn. by apply eccentricity_round.
  - exists u. split; [by apply elem_of_nodes|].
    intros e. by apply (eccentricity_round_raises u v).
Qed.

Lemma count_by_returns key :
  has_attr key G -> exists counts, TopologyPage.count_by key G s = (Returns counts, s).
Proof.
  intros Hattr. unfold TopologyPage.count_by.
  match goal with |- context [for_each ?l ?b _ _] =>
    destruct (for_each_pure b s (fun _ => True) l) with (acc := (∅ : gmap string Z))
      as (counts & Hrun & _)
  end.
  - intros node counts Hnode%elem_of_nodes _.
    apply elem_of_dom in Hnode as [a Ha]. rewrite Ha. simpl.
    destruct (Hattr node a Ha) as [x ->]. by eexists.
  - done.
  - by exists counts.
Qed.

(** C2: on every disconnected graph (one that the graph API can build),
    [nx.diameter] raises the NetworkXError for a graph that is not connected
    instead of returning a number; the page catches it and shows
    "N/A (Disconnected)" as the diameter, and when every node carries its type
    and status the two distributions that follow are still computed. *)
Theorem C2_disconnected_diameter_reported :
  disconnected G ->
  Nx.diameter G s = (Raises not_connected_error, s)
  /\ TopologyPage.diameter_metric G s
     = (Returns ("Network Diameter", TopologyPage.MetricStr "N/A (Disconnected)"), s)
  /\ (has_attr "type" G -> has_attr "status" G ->
      exists type_counts status_counts,
        TopologyPage.network_statistics G s
        = (Returns ("Network Diameter", TopologyPage.MetricStr "N/A (Disconnected)",
                    type_counts, status_counts), s)).
Proof.
  intros Hdis. pose proof (diameter_disconnected Hdis) as Hdiam.
  assert (TopologyPage.diameter_metric G s
          = (Returns ("Network Diameter", TopologyPage.MetricStr "N/A (Disconnected)"), s))
    as Hmetric.
  { unfold TopologyPage.diameter_metric, try_except_class.
    by rewrite (bind_raises _ _ _ _ _ Hdiam). }
  split; [done|]. split; [done|]. intros Htype Hstatus.
  destruct (count_by_returns "type" Htype) as [tc Htc].
  destruct (count_by_returns "status" Hstatus) as [sc Hsc].
  exists tc, sc. unfold TopologyPage.network_statistics.
  rewrite (bind_returns _ _ _ _ _ Hmetric), (bind_returns _ _ _ _ _ Htc),
    (bind_returns _ _ _ _ _ Hsc). done.
Qed.

End Diameter.

Lemma elem_of_range n i : i ∈ range n <-> 0 <= i < n.
Proof.
  unfold range. rewrite list_elem_of_fmap. split.
  - intros (k & -> & Hk%elem_of_seq). lia.
  - intros Hi. exists (Z.to_nat i). split; [lia|]. apply elem_of_seq. lia.
Qed.

Lemma add_node_has_attr key n attr G :
  is_Some (attr !! key) -> has_attr key G -> has_attr key (Nx.add_node n attr G).
Proof.
  intros Hkey Hattr m a. unfold Nx.add_node.
  destruct (Nx._node G !! n) as [old|]; simpl; rewrite lookup_insert; case_decide;
    try (by apply Hattr); intros [= <-]; [|done].
  apply lookup_union_is_Some. by left.
Qed.

Lemma ensure_node_present u G :
  u ∈ dom (Nx._node G) -> Nx.ensure_node u G = G.
Proof. intros [a Ha]%elem_of_dom. unfold Nx.ensure_node. by rewrite Ha. Qed.

Lemma add_edge_nodes u v G :
  u ∈ dom (Nx._node G) -> v ∈ dom (Nx._node G) ->
  Nx._node (Nx.add_edge u v G) = Nx._node G.
Proof.
  intros Hu Hv. unfold Nx.add_edge. simpl.
  by rewrite (ensure_node_present u G Hu), (ensure_node_present v G Hv).
Qed.

(** What the node loop and the edge loop of [create_network_graph] keep:
    the nodes are those of [range(num_nodes)] processed so far and each has
    a type and a status. *)
Lemma add_random_edges_nodes fuel num_nodes num_edges : forall G g G' g',
  (forall i, 0 <= i < num_nodes -> i ∈ dom (Nx._node G)) ->
  Utils.add_random_edges fuel num_nodes num_edges G g = (Returns G', g') ->
  Nx._node G' = Nx._node G.
Proof.
  induction fuel as [|fuel IH]; intros G g G' g' Hdom; simpl;
    destruct (decide (Nx.number_of_edges G < num_edges)).
  - done.
  - by intros [= <- _].
  - intros Hrun. inv_bind Hrun Hu. inv_bind Hrun Hv.
    apply randint_inv in Hu, Hv.
    assert (Nx._node (if decide (a <> a0) then Nx.add_edge a a0 G else G) = Nx._node G)
      as Hsame.
    { case_decide; [|done]. apply add_edge_nodes; apply Hdom; lia. }
    apply IH in Hrun; [congruence|]. intros i Hi. rewrite Hsame. by apply Hdom.
  - by intros [= <- _].
Qed.

Lemma create_network_graph_attrs fuel num_nodes num_edges g G g' :
  Utils.create_network_graph fuel num_nodes num_edges g = (Returns G, g') ->
  dom (Nx._node G) = list_to_set (range num_nodes)
  /\ has_attr "type" G /\ has_attr "status" G.
Proof.
  unfold Utils.create_network_graph. intros Hrun. inv_bind Hrun Hnodes.
  assert (dom (Nx._node a) = list_to_set (range num_nodes)
          /\ has_attr "type" a /\ has_attr "status" a) as (Hdom & Ht & Hs).
  { revert Hnodes.
    match goal with |- for_each ?l ?b _ _ = _ -> _ =>
      apply (for_each_sound
               (fun pre G => dom (Nx._node G) = list_to_set pre
                             /\ has_attr "type" G /\ has_attr "status" G)
               (fun _ => True) b l) with (pre := @nil Z)
    end.
    - intros pre i acc r acc' r' _ (Hdom & Ht & Hs) Hbody.
      inv_bind Hbody Hty. inv_bind Hbody Hst. apply ret_inv in Hbody as [<- _].
      split; [|split].
      + rewrite list_to_set_app_L, <- Hdom. unfold Nx.add_node.
        destruct (Nx._node acc !! i) as [old|] eqn:Hi; simpl; rewrite dom_insert_L;
          [apply elem_of_dom_2 in Hi|]; set_solver.
      + apply add_node_has_attr; [|done]. rewrite lookup_insert_eq. by eexists.
      + apply add_node_has_attr; [|done].
        rewrite lookup_insert_ne by done. rewrite lookup_insert_eq. by eexists.
    - by apply Forall_forall.
    - split; [|split]; [set_solver| |]; intros n x; simpl; by rewrite lookup_empty. }
  pose proof (add_random_edges_nodes fuel num_nodes num_edges a s G g') as Hsame.
  rewrite <- Hdom. unfold has_attr in *.
  rewrite Hsame; [done| |done].
  intros i Hi. rewrite Hdom. apply elem_of_list_to_set, elem_of_range. lia.
Qed.

(** No path leaves a set of nodes that contains the neighbours of its
    members. *)
Lemma closed_set_unreachable (G : Nx.Graph) (X : gset Z) u v :
  (forall a, a ∈ X -> Nx._adj G !!! a ⊆ X) -> u ∈ X -> v ∉ X -> ~ reachable G u v.
Proof.
  intros Hclosed Hu Hv Hreach. apply Hv. clear Hv.
  induction Hreach as [|a b c Hab _ IH]; [done|].
  apply IH. by apply (Hclosed a).
Qed.

Lemma small_disconnected_graph_built :
  Utils.create_network_graph 6 4 1 rng_small_graph
  = (Returns small_disconnected_graph,
     snd (Utils.create_network_graph 6 4 1 rng_small_graph)).
Proof. vm_compute. reflexivity. Qed.

Lemma small_disconnected_graph_wf : wf_graph small_disconnected_graph.
Proof. eapply create_network_graph_wf, small_disconnected_graph_built. Qed.

Lemma small_disconnected_graph_disconnected : disconnected small_disconnected_graph.
Proof.
  exists 0, 2. split; [by vm_compute|]. split; [by vm_compute|].
  apply (closed_set_unreachable _ {[0; 1]}); [|set_solver|set_solver].
  intros a Ha.
  assert (a = 0 \/ a = 1) as [->| ->] by set_solver;
    apply (bool_decide_unpack _); by vm_compute.
Qed.

(** The random network of four nodes and one edge: its diameter is reported
    as "N/A (Disconnected)". *)
Lemma C2_disconnected_diameter_witness :
  wf_graph small_disconnected_graph
  /\ disconnected small_disconnected_graph
  /\ Nx.diameter small_disconnected_graph tt = (Raises not_connected_error, tt)
  /\ TopologyPage.diameter_metric small_disconnected_graph tt
     = (Returns ("Network Diameter", TopologyPage.MetricStr "N/A (Disconnected)"), tt)
  /\ exists type_counts status_counts,
       TopologyPage.network_statistics small_disconnected_graph tt
       = (Returns ("Network Diameter", TopologyPage.MetricStr "N/A (Disconnected)",
                   type_counts, status_counts), tt).
Proof.
  split; [apply small_disconnected_graph_wf|].
  split; [apply small_disconnected_graph_disconnected|].
  pose proof (C2_disconnected_diameter_reported tt small_disconnected_graph
                small_disconnected_graph_wf small_disconnected_graph_disconnected)
    as (H1 & H2 & H3).
  split; [done|]. split; [done|].
  pose proof (create_network_graph_attrs _ _ _ _ _ _ small_disconnected_graph_built)
    as (_ & Ht & Hs).
  by apply H3.
Defined.

(** ** The identity resolver of the design *)

(** A value of higher confidence wins whatever the timestamps and sources. *)
Lemma wins_higher_confidence new old :
  (Resolver.av_confidence old < Resolver.av_confidence new)%Q ->
  Resolver.wins new old = true /\ Resolver.wins old new = false.
Proof.
  intros Hlt. unfold Resolver.wins.
  destruct (Qlt_le_dec (Resolver.av_confidence old) (Resolver.av_confidence new));
    [|lra].
  destruct (Qlt_le_dec (Resolver.av_confidence new) (Resolver.av_confidence old));
    [lra|done].
Qed.

(** C7: resolving the authenticated observation (hostname "sw1", confidence
    0.9, t=100) and the passive one (hostname "switch-unknown", confidence
    0.4, t=105) for MAC aa:bb:cc:dd:ee:ff, in either order of arrival, gives
    exactly one device, keyed by that MAC, whose hostname is "sw1". *)
Theorem C7_scenario_higher_confidence_wins :
  forall records,
    records = [obs_authenticated; obs_passive] \/ records = [obs_passive; obs_authenticated] ->
    exists d,
      Resolver.resolve records ∅ = {[ "aa:bb:cc:dd:ee:ff" := d ]}
      /\ Resolver.mac d = Some "aa:bb:cc:dd:ee:ff"
      /\ Resolver.hostname d = Some "sw1".
Proof.
  intros records [-> | ->]; eexists; (split; [vm_compute; reflexivity|]); by vm_compute.
Qed.

(** The scenario with the authenticated observation arriving first. *)
Lemma C7_scenario_witness :
  exists d,
    Resolver.resolve [obs_authenticated; obs_passive] ∅ = {[ "aa:bb:cc:dd:ee:ff" := d ]}
    /\ Resolver.mac d = Some "aa:bb:cc:dd:ee:ff"
    /\ Resolver.hostname d = Some "sw1".
Proof. apply (C7_scenario_higher_confidence_wins [obs_authenticated; obs_passive]). by left. Defined.


(** ** utils.py: the shape of the random network *)

Section DegreeSum.
Implicit Types (adj : gmap Z (gset Z)) (nbrs : gset Z).



End DegreeSum.

























(** ** utils.py: images and project phases *)

Lemma mapping_get_known query urls :
  UtilsMisc.mapping_get query UtilsMisc.image_mappings = Some urls ->
  (query, urls) ∈ UtilsMisc.image_mappings.
Proof.
  unfold UtilsMisc.mapping_get. destruct (List.find _ _) as [[k v]|] eqn:E; [|done].
  simpl. intros [= ->]. apply find_some in E as [Hin Hk].
  apply String.eqb_eq in Hk. simpl in Hk. subst. by apply list_elem_of_In.
Qed.












(** ** Generated severities against the enum *)



(** ** utils.py: random addresses *)





